(** * Mentorra backend (backend/first_assistant.py)

    A shallow embedding of the three request handlers of the relay
    ([mentor_assist], [text_to_speech], [speech_to_text]), of the
    module-level start-up check, and of the parts of the libraries they
    go through (pydantic model construction, FastAPI's treatment of a
    handler's outcome), followed by the properties of the
    specification. *)

From Stdlib Require Import SpecFloat.
From stdpp Require Import gmap strings list fin_maps pretty.

Set Warnings "-register-all".
Set Default Proof Using "Type".

Local Open Scope Z_scope.

(** ** Python values and exceptions *)

Module Py.

(** Characters that a Rocq string literal cannot hold directly. *)
Definition dq : string := String (Ascii.ascii_of_nat 34) EmptyString.
Definition nl : string := String (Ascii.ascii_of_nat 10) EmptyString.

(** [bytes] objects. *)
Abbreviation bytes := (list Byte.byte).

(** Python floats (binary64), as decoded IEEE values. *)
Definition float_zero (f : spec_float) : bool :=
  match f with S754_zero _ => true | _ => false end.
Definition float_1_0 : spec_float := S754_finite false 4503599627370496 (-52).
Definition float_one (f : spec_float) : bool := SFeqb f float_1_0.

(** The values [json.loads] can produce. A JSON object becomes a [dict]
    with string keys (a later duplicate key overwrites an earlier one,
    so a finite map holds exactly what the dict holds). *)
Inductive pyval : Type :=
| PNone
| PBool (b : bool)
| PInt (z : Z)
| PFloat (f : spec_float)
| PStr (s : string)
| PList (l : list pyval)
| PDict (d : gmap string pyval).

(** [type(v).__name__] *)
Definition type_name (v : pyval) : string :=
  match v with
  | PNone => "NoneType"
  | PBool _ => "bool"
  | PInt _ => "int"
  | PFloat _ => "float"
  | PStr _ => "str"
  | PList _ => "list"
  | PDict _ => "dict"
  end.

(** Truth value of an [Optional[str]]: [None] and the empty string are
    false. *)
Definition truthy (o : option string) : bool :=
  match o with
  | None => false
  | Some s => negb (String.eqb s EmptyString)
  end.

(** [a or b] on an [Optional[str]] with a string fallback. *)
Definition or_else (o : option string) (fallback : string) : string :=
  match o with
  | Some s => if truthy o then s else fallback
  | None => fallback
  end.

(** How an f-string renders an [Optional[str]]. *)
Definition format_opt (o : option string) : string :=
  match o with
  | Some s => s
  | None => "None"
  end.

Definition of_opt_str (o : option string) : pyval :=
  match o with
  | Some s => PStr s
  | None => PNone
  end.

(** One entry of a pydantic [ValidationError]: the path of the value
    that was refused. pydantic also records a kind and the offending
    input with each entry; nothing below depends on them. *)
Inductive loc_item : Type :=
| Key (name : string)
| Index (i : nat).

Record line_error : Type := LineError { loc : list loc_item }.

(** Exceptions, all of them subclasses of [Exception]. [VendorError]
    stands for whatever a vendor SDK or the transport raises; its text
    is arbitrary. *)
Inductive exn : Type :=
| JSONDecodeError (msg : string) (lineno colno pos : nat)
| TypeError (msg : string)
| IndexError (msg : string)
| ValueError (msg : string)
| ValidationError (title : string) (errors : list line_error)
| HTTPException (status_code : Z) (detail : string)
| VendorError (msg : string).

(** Outcome of scanning a text as JSON: the value, or what
    [JSONDecodeError] is built from. *)
Inductive decoded : Type :=
| Decoded (v : pyval)
| Malformed (msg : string) (lineno colno pos : nat).

Inductive result (A : Type) : Type :=
| Ok (a : A)
| Raise (e : exn).
Arguments Ok {A} a.
Arguments Raise {A} e.

End Py.
Export Py.

(** ** pydantic: validation of Python input in the default (lax) mode

    Only the field types the models of the backend declare are covered:
    [str], [bool], [Optional[...]], [List[str]] and a nested model. The
    input is a value produced by [json.loads]. *)

Module Pydantic.

Inductive validated (A : Type) : Type :=
| Valid (a : A)
| Invalid (errors : list line_error).
Arguments Valid {A} a.
Arguments Invalid {A} errors.

(** All fields are validated and the errors of all of them collected, in
    declaration order. *)
Definition ap {A B : Type} (f : validated (A → B)) (x : validated A)
  : validated B :=
  match f, x with
  | Valid g, Valid a => Valid (g a)
  | Valid _, Invalid e => Invalid e
  | Invalid e, Valid _ => Invalid e
  | Invalid e1, Invalid e2 => Invalid (e1 ++ e2)
  end.
Infix "<*>" := ap (at level 61, left associativity).

Definition validator (A : Type) : Type := list loc_item → pyval → validated A.

(** [str]: a number, a boolean, [None], a list or a dict is refused. *)
Definition str_validator : validator string := λ at_loc v,
  match v with
  | PStr s => Valid s
  | _ => Invalid [LineError at_loc]
  end.

Definition lower_ascii (c : Ascii.ascii) : Ascii.ascii :=
  let n := Ascii.nat_of_ascii c in
  if ((65 <=? n) && (n <=? 90))%nat then Ascii.ascii_of_nat (n + 32) else c.

Fixpoint lower (s : string) : string :=
  match s with
  | EmptyString => EmptyString
  | String c s' => String (lower_ascii c) (lower s')
  end.

Definition member (s : string) (l : list string) : bool :=
  existsb (String.eqb s) l.

(** The strings a [bool] field accepts; letters in either case. *)
Definition str_as_bool (s : string) : option bool :=
  if String.eqb s "0" || member (lower s) ["f"; "n"; "no"; "off"; "false"]
  then Some false
  else if String.eqb s "1" || member (lower s) ["t"; "y"; "on"; "yes"; "true"]
  then Some true
  else None.

Definition int_as_bool (z : Z) : option bool :=
  if z =? 0 then Some false else if z =? 1 then Some true else None.

Definition float_as_bool (f : spec_float) : option bool :=
  if float_zero f then Some false
  else if float_one f then Some true
  else None.

(** [bool]: a boolean as it is; otherwise the integers 0 and 1, the
    floats 0.0 and 1.0 and the strings of [str_as_bool] are converted. *)
Definition lax_bool (v : pyval) : option bool :=
  match v with
  | PBool b => Some b
  | PStr s => str_as_bool s
  | PInt z => int_as_bool z
  | PFloat f => float_as_bool f
  | _ => None
  end.

Definition bool_validator : validator bool := λ at_loc v,
  match lax_bool v with
  | Some b => Valid b
  | None => Invalid [LineError at_loc]
  end.

(** [Optional[T]]: [None] as it is, anything else through [T]. *)
Definition optional {A : Type} (inner : validator A) : validator (option A) :=
  λ at_loc v,
  match v with
  | PNone => Valid None
  | _ => match inner at_loc v with
         | Valid a => Valid (Some a)
         | Invalid e => Invalid e
         end
  end.

Fixpoint validate_items {A : Type} (inner : validator A)
    (at_loc : list loc_item) (i : nat) (l : list pyval)
  : validated (list A) :=
  match l with
  | [] => Valid []
  | v :: l' =>
      Valid cons <*> inner (at_loc ++ [Index i]) v
                 <*> validate_items inner at_loc (S i) l'
  end.

(** [List[T]]: a list, each item through [T]. *)
Definition list_validator {A : Type} (inner : validator A)
  : validator (list A) := λ at_loc v,
  match v with
  | PList l => validate_items inner at_loc 0 l
  | _ => Invalid [LineError at_loc]
  end.

(** A field of a model: looked up by name in the input dict; when the
    key is absent the declared default is taken as it is, and a field
    without default is reported missing. Keys that name no field are
    never looked at (the default [extra='ignore']). *)
Definition field {A : Type} (inner : validator A) (at_loc : list loc_item)
    (name : string) (default : option A) (d : gmap string pyval)
  : validated A :=
  match d !! name with
  | Some v => inner (at_loc ++ [Key name]) v
  | None =>
      match default with
      | Some a => Valid a
      | None => Invalid [LineError (at_loc ++ [Key name])]
      end
  end.

Definition required {A : Type} : option A := None.

(** A model as a field type: a dict, validated by the model. *)
Definition model_validator {A : Type}
    (fields : list loc_item → gmap string pyval → validated A)
  : validator A := λ at_loc v,
  match v with
  | PDict d => fields at_loc d
  | _ => Invalid [LineError at_loc]
  end.

End Pydantic.
Export Pydantic.

(** ** Data models *)

Module Models.

(** class FounderProfile(BaseModel) *)
Record FounderProfile : Type := {
  industry : option string;
  stage : option string;
  key_challenges : option (list string)
}.

(** class UserRequest(BaseModel) *)
Record UserRequest : Type := {
  user_message : string;
  founder_profile : option FounderProfile;
  active_mentor_track : option string;
  memory_context : option string
}.

(** class MentorResponse(BaseModel) *)
Record MentorResponse : Type := {
  mentor_track : string;
  switched_track : bool;
  reply : string;
  clarifying_question : option string;
  next_actions : list string;
  memory_update : string
}.

(** class TTSRequest(BaseModel) *)
Record TTSRequest : Type := {
  text : string;
  voice_id : option string;
  model_id : option string;
  output_format : option string
}.

Definition default_voice_id : string := "JBFqnCBsd6RMkjVDRZzb".
Definition default_model_id : string := "eleven_monolingual_v1".
Definition default_output_format : string := "mp3_44100_128".

Definition FounderProfile_fields (at_loc : list loc_item)
    (d : gmap string pyval) : validated FounderProfile :=
  Valid Build_FounderProfile
    <*> field (optional str_validator) at_loc "industry" (Some None) d
    <*> field (optional str_validator) at_loc "stage" (Some None) d
    <*> field (optional (list_validator str_validator)) at_loc
          "key_challenges" (Some (Some [])) d.

Definition UserRequest_fields (at_loc : list loc_item)
    (d : gmap string pyval) : validated UserRequest :=
  Valid Build_UserRequest
    <*> field str_validator at_loc "user_message" required d
    <*> field (optional (model_validator FounderProfile_fields)) at_loc
          "founder_profile" (Some None) d
    <*> field (optional str_validator) at_loc "active_mentor_track"
          (Some None) d
    <*> field (optional str_validator) at_loc "memory_context"
          (Some (Some EmptyString)) d.

Definition MentorResponse_fields (at_loc : list loc_item)
    (d : gmap string pyval) : validated MentorResponse :=
  Valid Build_MentorResponse
    <*> field str_validator at_loc "mentor_track" required d
    <*> field bool_validator at_loc "switched_track" required d
    <*> field str_validator at_loc "reply" required d
    <*> field (optional str_validator) at_loc "clarifying_question"
          (Some None) d
    <*> field (list_validator str_validator) at_loc "next_actions" required d
    <*> field str_validator at_loc "memory_update" required d.

Definition TTSRequest_fields (at_loc : list loc_item)
    (d : gmap string pyval) : validated TTSRequest :=
  Valid Build_TTSRequest
    <*> field str_validator at_loc "text" required d
    <*> field (optional str_validator) at_loc "voice_id"
          (Some (Some default_voice_id)) d
    <*> field (optional str_validator) at_loc "model_id"
          (Some (Some default_model_id)) d
    <*> field (optional str_validator) at_loc "output_format"
          (Some (Some default_output_format)) d.

(** The dict a [MentorResponse] is serialised to: every field of the
    model, set or not. *)
Definition MentorResponse_model_dump (r : MentorResponse)
  : gmap string pyval :=
  <["mentor_track" := PStr (mentor_track r)]>
  (<["switched_track" := PBool (switched_track r)]>
  (<["reply" := PStr (reply r)]>
  (<["clarifying_question" := of_opt_str (clarifying_question r)]>
  (<["next_actions" := PList (PStr <$> next_actions r)]>
  (<["memory_update" := PStr (memory_update r)]> ∅))))).

(** *** [model_dump_json]: compact JSON text *)

Definition bs : string := String (Ascii.ascii_of_nat 92) EmptyString.

Definition hex_digit (n : nat) : string :=
  String.substring n 1 "0123456789abcdef".

(** One character of a JSON string: the quote, the backslash and the
    control characters are escaped, everything else is written as is. *)
Definition escape_char (c : Ascii.ascii) : string :=
  let n := Ascii.nat_of_ascii c in
  if (n =? 34)%nat then bs +:+ dq
  else if (n =? 92)%nat then bs +:+ bs
  else if (n =? 8)%nat then bs +:+ "b"
  else if (n =? 9)%nat then bs +:+ "t"
  else if (n =? 10)%nat then bs +:+ "n"
  else if (n =? 12)%nat then bs +:+ "f"
  else if (n =? 13)%nat then bs +:+ "r"
  else if (n <? 32)%nat
       then bs +:+ "u00" +:+ hex_digit (n / 16) +:+ hex_digit (n mod 16)
  else String c EmptyString.

Fixpoint escape (s : string) : string :=
  match s with
  | EmptyString => EmptyString
  | String c s' => escape_char c +:+ escape s'
  end.

Definition json_str (s : string) : string := dq +:+ escape s +:+ dq.

Definition json_opt {A : Type} (f : A → string) (o : option A) : string :=
  match o with
  | Some a => f a
  | None => "null"
  end.

Fixpoint json_items (l : list string) : string :=
  match l with
  | [] => EmptyString
  | [s] => json_str s
  | s :: l' => json_str s +:+ "," +:+ json_items l'
  end.

Definition json_list (l : list string) : string := "[" +:+ json_items l +:+ "]".

Definition json_key (k : string) : string := dq +:+ k +:+ dq +:+ ":".

Definition FounderProfile_model_dump_json (p : FounderProfile) : string :=
  "{" +:+ json_key "industry" +:+ json_opt json_str (industry p)
  +:+ "," +:+ json_key "stage" +:+ json_opt json_str (stage p)
  +:+ "," +:+ json_key "key_challenges"
  +:+ json_opt json_list (key_challenges p) +:+ "}".

End Models.
Export Models.

(** ** The two vendor clients, as the handlers see them *)

Module Vendors.

(** One element of [messages]. *)
Record message_param : Type := { role : string; content : string }.

(** Keyword arguments of [openai_client.chat.completions.create]. *)
Record chat_request : Type := {
  chat_model : string;
  response_format : list (string * string);
  messages : list message_param;
  temperature : spec_float
}.

(** The part of the completion object the handler reads:
    [completion.choices[i].message.content]. *)
Record chat_choice : Type := { message_content : option string }.
Record chat_completion : Type := { choices : list chat_choice }.

(** Keyword arguments of [elevenlabs_client.text_to_speech.convert]. *)
Record convert_request : Type := {
  convert_voice_id : option string;
  convert_model_id : option string;
  convert_text : string;
  convert_output_format : option string
}.

(** An iterator of [bytes]: the chunks it yields, then either the end
    of the iteration or an exception. *)
Record byte_stream : Type := {
  chunks : list bytes;
  failure : option exn
}.

(** Keyword arguments of [openai_client.audio.transcriptions.create];
    the file is a [BytesIO] with a [name]. *)
Record transcription_request : Type := {
  transcription_model : string;
  file_name : string;
  file_bytes : bytes
}.

Record transcription : Type := { transcript_text : string }.

Inductive vendor_call : Type :=
| ChatCompletionsCreate (r : chat_request)
| TextToSpeechConvert (r : convert_request)
| AudioTranscriptionsCreate (r : transcription_request).

(** What the process has done so far that is visible outside it: the
    lines printed and the calls made to the vendors, oldest first. *)
Record world : Type := World {
  stdout : list string;
  calls : list vendor_call
}.

Definition start : world := World [] [].

(** Everything outside the module that the handlers rely on: the
    scanner of the [json] module on a text, pydantic's rendering of the
    entries of a [ValidationError], the way the interpreter names the
    callee when a [**] argument is no mapping, and the answers of the
    two vendors. *)
Record services : Type := {
  json_decode : string → decoded;
  display_errors : list line_error → string;
  funcstr : string;
  chat_completions_create : chat_request → result chat_completion;
  text_to_speech_convert : convert_request → result byte_stream;
  audio_transcriptions_create : transcription_request → result transcription
}.

End Vendors.
Export Vendors.

(** ** Computations that print, call out and raise *)

Module Eff.

Definition M (A : Type) : Type := world → world * result A.

Definition ret {A : Type} (a : A) : M A := λ w, (w, Ok a).

Definition bind {A B : Type} (m : M A) (k : A → M B) : M B := λ w,
  match m w with
  | (w', Ok a) => k a w'
  | (w', Raise e) => (w', Raise e)
  end.

Definition raise {A : Type} (e : exn) : M A := λ w, (w, Raise e).

Definition lift {A : Type} (r : result A) : M A := λ w, (w, r).

Definition print (line : string) : M unit := λ w,
  (World (stdout w ++ [line]) (calls w), Ok tt).

(** A call to a vendor: noted, then answered by the client. *)
Definition call {A : Type} (c : vendor_call) (answer : result A) : M A := λ w,
  (World (stdout w) (calls w ++ [c]), answer).

(** [try: body  except Exception as e: handler e] *)
Definition try_except {A : Type} (body : M A) (handler : exn → M A) : M A :=
  λ w,
  match body w with
  | (w', Ok a) => (w', Ok a)
  | (w', Raise e) => handler e w'
  end.

Notation "x <- m ;; k" := (bind m (λ x, k))
  (at level 100, m at next level, right associativity).
Notation "m ;; k" := (bind m (λ _, k))
  (at level 100, right associativity).

End Eff.
Export Eff.

(** ** Module start-up: the environment and the key check *)

Module Startup.

(** [load_dotenv()]: the pairs of the .env file are added to the
    environment; a variable that is already set keeps its value. *)
Definition load_dotenv (dotenv environ : gmap string string)
  : gmap string string := environ ∪ dotenv.

Definition getenv (environ : gmap string string) (key : string)
  : option string := environ !! key.

Definition OPENAI_API_KEY : string := "OPENAI_API_KEY".
Definition ELEVENLABS_API_KEY : string := "ELEVENLABS_API_KEY".

(** What module initialisation leaves behind when it succeeds: the two
    clients, each holding the key it was built with. *)
Record app : Type := {
  openai_api_key : option string;
  elevenlabs_api_key : option string
}.

(** The statements of the module up to the creation of the clients. *)
Definition module_init (dotenv environ : gmap string string) : result app :=
  let environ := load_dotenv dotenv environ in
  if negb (truthy (getenv environ OPENAI_API_KEY))
  then Raise (ValueError "OPENAI_API_KEY is missing in .env")
  else if negb (truthy (getenv environ ELEVENLABS_API_KEY))
  then Raise (ValueError "ELEVENLABS_API_KEY is missing in .env")
  else Ok {| openai_api_key := getenv environ OPENAI_API_KEY;
             elevenlabs_api_key := getenv environ ELEVENLABS_API_KEY |}.

End Startup.
Export Startup.

(** ** The handlers *)

Module Backend.

Definition SYSTEM_PROMPT_LINES : list string := [
    "You are the Mentorra Routing Agent. You act as the brain behind a founder's mentorship experience.";
    EmptyString;
    "You will receive:";
    "- role: The current agent role (Router & Mentor Persona)";
    "- user_message: A single string from the founder";
    "- founder_profile: JSON summary of what we know so far";
    "- active_mentor: Current mentor track id if already selected";
    "- memory_context: Previous context of the conversation";
    EmptyString;
    "Primary goals:";
    "1) Classify the user’s message into exactly ONE mentor track (e.g., " +:+ dq +:+ "Product" +:+ dq +:+ ", " +:+ dq +:+ "Sales" +:+ dq +:+ ", " +:+ dq +:+ "Fundraising" +:+ dq +:+ ", " +:+ dq +:+ "Leadership" +:+ dq +:+ ", " +:+ dq +:+ "Growth" +:+ dq +:+ ").";
    "2) Decide whether we should switch mentors or stay on the current one. Prefer stability unless the user’s intent clearly changed.";
    "3) Reply as the selected mentor in a concise, supportive, operator style (no fluff).";
    "4) Ask at most ONE clarifying question, only if necessary to proceed.";
    "5) Provide 2–5 next actions that the founder can do immediately (this week).";
    "6) Update " +:+ dq +:+ "memory_update" +:+ dq +:+ " compactly so the next call stays consistent.";
    EmptyString;
    "Output must be valid JSON matching this schema:";
    "{";
    "  " +:+ dq +:+ "mentor_track" +:+ dq +:+ ": " +:+ dq +:+ "string" +:+ dq +:+ ",";
    "  " +:+ dq +:+ "switched_track" +:+ dq +:+ ": boolean,";
    "  " +:+ dq +:+ "reply" +:+ dq +:+ ": " +:+ dq +:+ "string" +:+ dq +:+ ",";
    "  " +:+ dq +:+ "clarifying_question" +:+ dq +:+ ": " +:+ dq +:+ "string or null" +:+ dq +:+ ",";
    "  " +:+ dq +:+ "next_actions" +:+ dq +:+ ": [" +:+ dq +:+ "action1" +:+ dq +:+ ", " +:+ dq +:+ "action2" +:+ dq +:+ "],";
    "  " +:+ dq +:+ "memory_update" +:+ dq +:+ ": " +:+ dq +:+ "string summary of new facts" +:+ dq;
    "}"
  ].

(** The prompt opens with a line break and every line ends with one. *)
Definition SYSTEM_PROMPT_TEMPLATE : string :=
  nl +:+ String.concat nl SYSTEM_PROMPT_LINES +:+ nl.

(** The upload as the handler receives it: the declared file name, if
    any, and what reading the whole file gives. *)
Record UploadFile : Type := {
  filename : option string;
  read : result bytes
}.

(** [StreamingResponse(content, media_type=...)]; the status code is
    left at its default. *)
Record StreamingResponse : Type := {
  body_iterator : byte_stream;
  media_type : string
}.

(** [choices[i]] *)
Definition getitem {A : Type} (l : list A) (i : nat) : result A :=
  match l !! i with
  | Some a => Ok a
  | None => Raise (IndexError "list index out of range")
  end.

(** The generator [iterfile] over a vendor stream: the chunks that are
    not empty, in order; an exception of the vendor's iterator comes out
    of the generator at the same point. *)
Definition iterfile (audio_stream : byte_stream) : byte_stream :=
  {| chunks := filter (λ chunk, chunk ≠ []) (chunks audio_stream);
     failure := failure audio_stream |}.

(** The text inserted for the active track: [x if x else "None"]. *)
Definition active_track_text (request : UserRequest) : string :=
  or_else (active_mentor_track request) "None".

(** The text inserted for the profile:
    [p.model_dump_json() if p else "Unknown"]; a model instance is
    always true. *)
Definition founder_profile_text (request : UserRequest) : string :=
  match founder_profile request with
  | Some p => FounderProfile_model_dump_json p
  | None => "Unknown"
  end.

Definition indent : string := "        ".

(** The literal text of the f-string around its four replacement
    fields. *)
Definition context_block (message track profile memory : string) : string :=
  nl +:+ indent +:+ "INPUT DATA:" +:+ nl
  +:+ indent +:+ "- User Message: " +:+ dq +:+ message +:+ dq +:+ nl
  +:+ indent +:+ "- Active Mentor Track: " +:+ track +:+ nl
  +:+ indent +:+ "- Founder Profile: " +:+ profile +:+ nl
  +:+ indent +:+ "- Memory Context: " +:+ memory +:+ nl
  +:+ indent.

Definition user_input_context (request : UserRequest) : string :=
  context_block (user_message request)
                (active_track_text request)
                (founder_profile_text request)
                (format_opt (memory_context request)).

(** The float 0.7 *)
Definition temperature_0_7 : spec_float :=
  S754_finite false 6305039478318694 (-53).

Definition completion_request (request : UserRequest) : chat_request :=
  {| chat_model := "gpt-4-turbo";
     response_format := [("type", "json_object")];
     messages :=
       [ {| role := "system"; content := SYSTEM_PROMPT_TEMPLATE |};
         {| role := "user"; content := user_input_context request |} ];
     temperature := temperature_0_7 |}.

Definition synthesis_request (request : TTSRequest) : convert_request :=
  {| convert_voice_id := voice_id request;
     convert_model_id := model_id request;
     convert_text := text request;
     convert_output_format := output_format request |}.

Definition whisper_request (file : UploadFile) (audio_bytes : bytes)
  : transcription_request :=
  {| transcription_model := "whisper-1";
     file_name := or_else (filename file) "audio.mp3";
     file_bytes := audio_bytes |}.

(** The contents of the user messages among the calls made so far:
    the context strings sent to the completion API. *)
Definition user_contents (c : vendor_call) : list string :=
  match c with
  | ChatCompletionsCreate r =>
      content <$> filter (λ m, role m = "user") (messages r)
  | _ => []
  end.

Definition contexts_sent (w : world) : list string :=
  mjoin (user_contents <$> calls w).

(** The requests forwarded to the speech vendor so far. *)
Definition synthesis_calls (w : world) : list convert_request :=
  omap (λ c, match c with TextToSpeechConvert r => Some r | _ => None end)
       (calls w).

(** The files forwarded to the transcription vendor so far. *)
Definition transcription_calls (w : world) : list transcription_request :=
  omap (λ c, match c with AudioTranscriptionsCreate r => Some r | _ => None end)
       (calls w).

(** *** What the framework sends back *)

Inductive http_body : Type :=
| JSONBody (v : pyval)
| StreamBody (s : byte_stream) (content_type : string)
| TextBody (s : string)
| ErrorsBody (errors : list line_error).

Record http_response : Type := {
  status : Z;
  body : http_body
}.

(** A request to one of the three routes, after the framework has read
    it: the JSON body, or the [file] part of the form if there is one. *)
Inductive request : Type :=
| PostMentorAssist (json_body : pyval)
| PostVoiceSpeak (json_body : pyval)
| PostVoiceTranscribe (file : option UploadFile).

(** A body or form that does not validate against the handler's
    parameter is answered by the framework, without calling the
    handler. *)
Definition unprocessable (errors : list line_error) : http_response :=
  {| status := 422; body := ErrorsBody errors |}.

(** The outcome of a handler turned into a response: a returned value
    is rendered with status 200, an [HTTPException] becomes its status
    and a JSON object with its detail, any other exception the server's
    plain 500. *)
Definition respond {A : Type} (render : A → http_body) (h : M A)
  : world → world * http_response := λ w,
  match h w with
  | (w', Ok a) => (w', {| status := 200; body := render a |})
  | (w', Raise (HTTPException status_code detail)) =>
      (w', {| status := status_code;
              body := JSONBody (PDict {[ "detail" := PStr detail ]}) |})
  | (w', Raise _) =>
      (w', {| status := 500; body := TextBody "Internal Server Error" |})
  end.

Section Handlers.

Variable env : services.

Definition plural (n : nat) : string :=
  if (n =? 1)%nat then EmptyString else "s".

(** [str(e)] *)
Definition str (e : exn) : string :=
  match e with
  | JSONDecodeError msg lineno colno pos =>
      msg +:+ ": line " +:+ pretty lineno +:+ " column " +:+ pretty colno
      +:+ " (char " +:+ pretty pos +:+ ")"
  | TypeError msg | IndexError msg | ValueError msg | VendorError msg => msg
  | ValidationError title errors =>
      pretty (length errors) +:+ " validation error"
      +:+ plural (length errors) +:+ " for " +:+ title +:+ nl
      +:+ display_errors env errors
  | HTTPException status_code detail =>
      pretty status_code +:+ ": " +:+ detail
  end.

(** [json.loads(raw_content)] *)
Definition json_loads (raw_content : option string) : result pyval :=
  match raw_content with
  | None =>
      Raise (TypeError
        "the JSON object must be str, bytes or bytearray, not NoneType")
  | Some s =>
      match json_decode env s with
      | Decoded v => Ok v
      | Malformed msg lineno colno pos =>
          Raise (JSONDecodeError msg lineno colno pos)
      end
  end.

(** Construction of a [MentorResponse] from the keyword arguments
    [data]. *)
Definition MentorResponse_init (data : pyval) : result MentorResponse :=
  match data with
  | PDict d =>
      match MentorResponse_fields [] d with
      | Valid r => Ok r
      | Invalid errors => Raise (ValidationError "MentorResponse" errors)
      end
  | _ =>
      Raise (TypeError (funcstr env +:+ " argument after ** must be a mapping, not "
                        +:+ type_name data))
  end.

(** The statements under [try] in [mentor_assist]. *)
Definition mentor_assist_try (request : UserRequest) : M MentorResponse :=
  let r := completion_request request in
  completion <- call (ChatCompletionsCreate r)
                     (chat_completions_create env r) ;;
  choice <- lift (getitem (choices completion) 0) ;;
  let raw_content := message_content choice in
  data <- lift (json_loads raw_content) ;;
  lift (MentorResponse_init data).

Definition mentor_assist (request : UserRequest) : M MentorResponse :=
  try_except
    (mentor_assist_try request)
    (λ e,
     print ("Mentor Assist Error: " +:+ str e) ;;
     raise (HTTPException 500 (str e))).

(** The statements under [try] in [text_to_speech]. The generator is
    created here and run by whoever sends the response. *)
Definition text_to_speech_try (request : TTSRequest) : M StreamingResponse :=
  let r := synthesis_request request in
  audio_stream <- call (TextToSpeechConvert r)
                       (text_to_speech_convert env r) ;;
  ret {| body_iterator := iterfile audio_stream;
         media_type := "audio/mpeg" |}.

Definition text_to_speech (request : TTSRequest) : M StreamingResponse :=
  try_except
    (text_to_speech_try request)
    (λ e,
     print ("TTS Error: " +:+ str e) ;;
     raise (HTTPException 500 ("Text-to-speech failed: " +:+ str e))).

(** The statements under [try] in [speech_to_text]. *)
Definition speech_to_text_try (file : UploadFile) : M (gmap string pyval) :=
  audio_bytes <- lift (read file) ;;
  let r := whisper_request file audio_bytes in
  transcript <- call (AudioTranscriptionsCreate r)
                     (audio_transcriptions_create env r) ;;
  ret {[ "text" := PStr (transcript_text transcript) ]}.

Definition speech_to_text (file : UploadFile) : M (gmap string pyval) :=
  try_except
    (speech_to_text_try file)
    (λ e,
     print ("STT Error: " +:+ str e) ;;
     raise (HTTPException 500 ("Transcription failed: " +:+ str e))).

(** *** The routes *)

(** POST /api/mentor-assist, with [response_model=MentorResponse] *)
Definition api_mentor_assist (json_body : pyval)
  : world → world * http_response :=
  match model_validator UserRequest_fields [Key "body"] json_body with
  | Invalid errors => λ w, (w, unprocessable errors)
  | Valid request =>
      respond (λ r, JSONBody (PDict (MentorResponse_model_dump r)))
              (mentor_assist request)
  end.

(** POST /api/voice/speak *)
Definition api_voice_speak (json_body : pyval)
  : world → world * http_response :=
  match model_validator TTSRequest_fields [Key "body"] json_body with
  | Invalid errors => λ w, (w, unprocessable errors)
  | Valid request =>
      respond (λ r, StreamBody (body_iterator r) (media_type r))
              (text_to_speech request)
  end.

(** POST /api/voice/transcribe *)
Definition api_voice_transcribe (file : option UploadFile)
  : world → world * http_response :=
  match file with
  | None => λ w, (w, unprocessable [LineError [Key "body"; Key "file"]])
  | Some f => respond (λ d, JSONBody (PDict d)) (speech_to_text f)
  end.

Definition route (r : request) : world → world * http_response :=
  match r with
  | PostMentorAssist json_body => api_mentor_assist json_body
  | PostVoiceSpeak json_body => api_voice_speak json_body
  | PostVoiceTranscribe file => api_voice_transcribe file
  end.

Fixpoint serve (requests : list request) (w : world)
  : world * list http_response :=
  match requests with
  | [] => (w, [])
  | r :: rest =>
      let '(w1, response) := route r w in
      let '(w2, responses) := serve rest w1 in
      (w2, response :: responses)
  end.

(** The process: the module is initialised, and only then are requests
    served. An exception at initialisation ends the process. *)
Definition run (dotenv environ : gmap string string)
    (requests : list request) : result (list http_response) :=
  match module_init dotenv environ with
  | Raise e => Raise e
  | Ok _ => Ok (snd (serve requests start))
  end.

End Handlers.

End Backend.
Export Backend.

(** ** The MentorResponse schema as a property of JSON values *)

Module Schema.

Definition is_str (v : pyval) : bool :=
  match v with PStr _ => true | _ => false end.

Definition is_bool (v : pyval) : bool :=
  match v with PBool _ => true | _ => false end.

Definition is_str_or_null (v : pyval) : bool :=
  match v with PStr _ | PNone => true | _ => false end.

Definition is_list_of_str (v : pyval) : bool :=
  match v with PList l => forallb is_str l | _ => false end.

(** A property that must be there, of the given kind. *)
Definition has (d : gmap string pyval) (k : string) (kind : pyval → bool)
  : bool :=
  match d !! k with Some v => kind v | None => false end.

(** A property that may be left out. *)
Definition may_have (d : gmap string pyval) (k : string)
    (kind : pyval → bool) : bool :=
  match d !! k with Some v => kind v | None => true end.

Definition response_fields : list string :=
  [ "mentor_track"; "switched_track"; "reply"; "clarifying_question";
    "next_actions"; "memory_update" ].

(** The schema the class [MentorResponse] declares: an object in which
    [mentor_track], [reply] and [memory_update] are strings,
    [switched_track] is a boolean, [next_actions] is a list of strings
    and [clarifying_question], if there, is a string or null. Other
    properties are not constrained. *)
Definition conforms (v : pyval) : bool :=
  match v with
  | PDict d =>
      has d "mentor_track" is_str
      && has d "switched_track" is_bool
      && has d "reply" is_str
      && may_have d "clarifying_question" is_str_or_null
      && has d "next_actions" is_list_of_str
      && has d "memory_update" is_str
  | _ => false
  end.

Definition converts_to_bool (v : pyval) : bool :=
  match lax_bool v with Some _ => true | None => false end.

(** What the construction of a [MentorResponse] lets through: as
    [conforms], but [switched_track] may be any value the lax mode
    converts to a boolean. *)
Definition accepted (v : pyval) : bool :=
  match v with
  | PDict d =>
      has d "mentor_track" is_str
      && has d "switched_track" converts_to_bool
      && has d "reply" is_str
      && may_have d "clarifying_question" is_str_or_null
      && has d "next_actions" is_list_of_str
      && has d "memory_update" is_str
  | _ => false
  end.

End Schema.
Export Schema.

(** ** Stand-ins for the services, for running the handlers *)

Module Mock.

(** Texts a completion may carry, and what the scanner makes of them. *)
Definition q (s : string) : string := dq +:+ s +:+ dq.

Definition plain_text : string :=
  "{" +:+ q "mentor_track" +:+ ": " +:+ q "Product"
  +:+ ", " +:+ q "switched_track" +:+ ": false"
  +:+ ", " +:+ q "reply" +:+ ": " +:+ q "Talk to users first."
  +:+ ", " +:+ q "clarifying_question" +:+ ": null"
  +:+ ", " +:+ q "next_actions" +:+ ": [" +:+ q "Interview five users" +:+ "]"
  +:+ ", " +:+ q "memory_update" +:+ ": " +:+ q "B2B, pre-seed" +:+ "}".

Definition plain_data : gmap string pyval :=
  <["mentor_track" := PStr "Product"]>
  (<["switched_track" := PBool false]>
  (<["reply" := PStr "Talk to users first."]>
  (<["clarifying_question" := PNone]>
  (<["next_actions" := PList [PStr "Interview five users"]]>
  (<["memory_update" := PStr "B2B, pre-seed"]> ∅))))).

Definition extra_text : string :=
  "{" +:+ q "mentor_track" +:+ ": " +:+ q "Sales"
  +:+ ", " +:+ q "switched_track" +:+ ": true"
  +:+ ", " +:+ q "reply" +:+ ": " +:+ q "Call them."
  +:+ ", " +:+ q "next_actions" +:+ ": []"
  +:+ ", " +:+ q "memory_update" +:+ ": " +:+ q "has leads"
  +:+ ", " +:+ q "confidence" +:+ ": 3}".

Definition extra_data : gmap string pyval :=
  <["mentor_track" := PStr "Sales"]>
  (<["switched_track" := PBool true]>
  (<["reply" := PStr "Call them."]>
  (<["next_actions" := PList []]>
  (<["memory_update" := PStr "has leads"]>
  (<["confidence" := PInt 3]> ∅))))).

Definition one_text : string :=
  "{" +:+ q "mentor_track" +:+ ": " +:+ q "Growth"
  +:+ ", " +:+ q "switched_track" +:+ ": 1"
  +:+ ", " +:+ q "reply" +:+ ": " +:+ q "Measure retention."
  +:+ ", " +:+ q "next_actions" +:+ ": []"
  +:+ ", " +:+ q "memory_update" +:+ ": " +:+ q "none" +:+ "}".

Definition one_data : gmap string pyval :=
  <["mentor_track" := PStr "Growth"]>
  (<["switched_track" := PInt 1]>
  (<["reply" := PStr "Measure retention."]>
  (<["next_actions" := PList []]>
  (<["memory_update" := PStr "none"]> ∅)))).

Definition decode (s : string) : decoded :=
  if String.eqb s plain_text then Decoded (PDict plain_data)
  else if String.eqb s extra_text then Decoded (PDict extra_data)
  else if String.eqb s one_text then Decoded (PDict one_data)
  else if String.eqb s "{}" then Decoded (PDict ∅)
  else if String.eqb s "[]" then Decoded (PList [])
  else Malformed "Expecting value" 1 1 0.

Definition completion_with (raw : string) : chat_completion :=
  {| choices := [ {| message_content := Some raw |} ] |}.

Definition mock (completion : result chat_completion)
    (audio : result byte_stream) (transcript : result transcription)
  : services :=
  {| json_decode := decode;
     display_errors := λ errors, "(details)";
     funcstr := "first_assistant.MentorResponse()";
     chat_completions_create := λ _, completion;
     text_to_speech_convert := λ _, audio;
     audio_transcriptions_create := λ _, transcript |}.

Definition silence : result byte_stream :=
  Ok {| chunks := []; failure := None |}.
Definition no_transcript : result transcription :=
  Ok {| transcript_text := EmptyString |}.
Definition no_completion : result chat_completion :=
  Ok {| choices := [] |}.

(** A service whose completion carries the given text. *)
Definition completing (raw : string) : services :=
  mock (Ok (completion_with raw)) silence no_transcript.

(** Request bodies. *)
Definition hello : pyval :=
  PDict {[ "user_message" := PStr "How do I find customers?" ]}.

Definition say_hi : pyval := PDict {[ "text" := PStr "Hi" ]}.

Definition say_hi_nulls : pyval :=
  PDict (<["text" := PStr "Hi"]>
        (<["voice_id" := PNone]>
        (<["model_id" := PNone]>
        (<["output_format" := PNone]> ∅)))).

Definition track_and_profile (track : string) : pyval :=
  PDict (<["user_message" := PStr "hi"]>
        (<["active_mentor_track" := PStr track]>
        (<["founder_profile" := PDict ∅]> ∅))).

Definition riff : bytes := [Byte.x52; Byte.x49; Byte.x46; Byte.x46].

(** A vendor stream that breaks after its first chunk. *)
Definition broken_audio : result byte_stream :=
  Ok {| chunks := [riff]; failure := Some (VendorError "connection reset") |}.

Definition environ_with (openai elevenlabs : string) : gmap string string :=
  <[OPENAI_API_KEY := openai]> (<[ELEVENLABS_API_KEY := elevenlabs]> ∅).

Definition unnamed_upload : UploadFile :=
  {| filename := None; read := Ok riff |}.

End Mock.

(** ** The request bodies as properties of JSON values *)

Module Shapes.

Definition is_str_list_or_null (v : pyval) : bool :=
  match v with
  | PNone => true
  | PList l => forallb is_str l
  | _ => false
  end.

(** What [founder_profile] may be: null, or an object in which
    [industry] and [stage], if there, are strings or null and
    [key_challenges], if there, is a list of strings or null. *)
Definition profile_shape (v : pyval) : bool :=
  match v with
  | PNone => true
  | PDict d =>
      may_have d "industry" is_str_or_null
      && may_have d "stage" is_str_or_null
      && may_have d "key_challenges" is_str_list_or_null
  | _ => false
  end.

(** The bodies [UserRequest] declares: an object with a string
    [user_message]; the other three fields may be left out. *)
Definition user_request_shape (v : pyval) : bool :=
  match v with
  | PDict d =>
      has d "user_message" is_str
      && may_have d "founder_profile" profile_shape
      && may_have d "active_mentor_track" is_str_or_null
      && may_have d "memory_context" is_str_or_null
  | _ => false
  end.

(** The bodies [TTSRequest] declares: an object with a string [text];
    the three parameters may be left out. *)
Definition tts_request_shape (v : pyval) : bool :=
  match v with
  | PDict d =>
      has d "text" is_str
      && may_have d "voice_id" is_str_or_null
      && may_have d "model_id" is_str_or_null
      && may_have d "output_format" is_str_or_null
  | _ => false
  end.

(** The requests whose body or form the framework lets through to the
    handler. *)
Definition well_formed (r : request) : bool :=
  match r with
  | PostMentorAssist json_body => user_request_shape json_body
  | PostVoiceSpeak json_body => tts_request_shape json_body
  | PostVoiceTranscribe file =>
      match file with Some _ => true | None => false end
  end.

End Shapes.
Export Shapes.

(** * Properties *)

(** ** Strings *)

Lemma append_empty_inv (s1 s2 : string) :
  s1 +:+ s2 = EmptyString → s1 = EmptyString ∧ s2 = EmptyString.
Proof. destruct s1; simpl; [tauto | discriminate]. Qed.

Lemma append_nonempty_l (s1 s2 : string) :
  s1 ≠ EmptyString → s1 +:+ s2 ≠ EmptyString.
Proof. intros Hne Heq. apply append_empty_inv in Heq. tauto. Qed.

Lemma append_nonempty_r (s1 s2 : string) :
  s2 ≠ EmptyString → s1 +:+ s2 ≠ EmptyString.
Proof. intros Hne Heq. apply append_empty_inv in Heq. tauto. Qed.

(** ** Validation *)

Lemma ap_valid_inv {A B : Type} (f : validated (A → B)) (x : validated A) b :
  f <*> x = Valid b → ∃ g a, f = Valid g ∧ x = Valid a ∧ b = g a.
Proof.
  destruct f as [g|], x as [a|]; simpl; try discriminate.
  intros [= <-]. eauto.
Qed.

Lemma validate_items_strings at_loc (l : list pyval) : ∀ i,
  forallb is_str l = true →
  ∃ ss, validate_items str_validator at_loc i l = Valid ss ∧ PStr <$> ss = l.
Proof.
  induction l as [|v l IH]; intros i Hall.
  - exists []. done.
  - simpl in Hall. apply andb_true_iff in Hall as [Hv Hl].
    destruct v; try discriminate.
    destruct (IH (S i) Hl) as (ss & Hss & <-).
    exists (s :: ss). simpl. by rewrite Hss.
Qed.

Lemma validate_items_inv at_loc (l : list pyval) : ∀ i ss,
  validate_items str_validator at_loc i l = Valid ss → l = PStr <$> ss.
Proof.
  induction l as [|v l IH]; intros i ss.
  - simpl. by intros [= <-].
  - simpl.
    destruct (validate_items str_validator at_loc (S i) l) as [ss'|] eqn:Hl;
      destruct v; simpl; try discriminate.
    intros [= <-]. simpl. f_equal. by eapply IH.
Qed.

Lemma field_str_inv at_loc k d s :
  field str_validator at_loc k required d = Valid s → d !! k = Some (PStr s).
Proof.
  unfold field, required. destruct (d !! k) as [[]|]; simpl; try discriminate.
  by intros [= ->].
Qed.

Lemma field_bool_inv at_loc k d b :
  field bool_validator at_loc k required d = Valid b →
  ∃ v, d !! k = Some v ∧ lax_bool v = Some b.
Proof.
  unfold field, required, bool_validator.
  destruct (d !! k) as [v|]; [|discriminate].
  destruct (lax_bool v) eqn:Hv; [|discriminate].
  intros [= <-]. eauto.
Qed.

Lemma field_opt_str_inv at_loc k default d o :
  field (optional str_validator) at_loc k (Some default) d = Valid o →
  (d !! k = None ∧ o = default) ∨ d !! k = Some (of_opt_str o).
Proof.
  unfold field. destruct (d !! k) as [[]|]; simpl; try discriminate;
    intros [= <-]; auto.
Qed.

Lemma field_list_inv at_loc k d ss :
  field (list_validator str_validator) at_loc k required d = Valid ss →
  d !! k = Some (PList (PStr <$> ss)).
Proof.
  unfold field, required. destruct (d !! k) as [[]|]; simpl; try discriminate.
  intros H. apply validate_items_inv in H. by subst.
Qed.

(** What a successful construction says about the keyword arguments. *)
Lemma MentorResponse_fields_inv at_loc d r :
  MentorResponse_fields at_loc d = Valid r →
  d !! "mentor_track" = Some (PStr (mentor_track r))
  ∧ (∃ v, d !! "switched_track" = Some v ∧ lax_bool v = Some (switched_track r))
  ∧ d !! "reply" = Some (PStr (reply r))
  ∧ ((d !! "clarifying_question" = None ∧ clarifying_question r = None)
     ∨ d !! "clarifying_question" = Some (of_opt_str (clarifying_question r)))
  ∧ d !! "next_actions" = Some (PList (PStr <$> next_actions r))
  ∧ d !! "memory_update" = Some (PStr (memory_update r)).
Proof.
  unfold MentorResponse_fields. intros H.
  apply ap_valid_inv in H as (g6 & mu & H & Hmu & ->).
  apply ap_valid_inv in H as (g5 & na & H & Hna & ->).
  apply ap_valid_inv in H as (g4 & cq & H & Hcq & ->).
  apply ap_valid_inv in H as (g3 & re & H & Hre & ->).
  apply ap_valid_inv in H as (g2 & sw & H & Hsw & ->).
  apply ap_valid_inv in H as (g1 & mt & [= <-] & Hmt & ->).
  simpl.
  apply field_str_inv in Hmt, Hre, Hmu.
  apply field_bool_inv in Hsw. apply field_opt_str_inv in Hcq.
  apply field_list_inv in Hna. auto 10.
Qed.

Lemma of_opt_str_kind o : is_str_or_null (of_opt_str o) = true.
Proof. by destruct o. Qed.

Lemma strings_kind (ss : list string) : forallb is_str (PStr <$> ss) = true.
Proof. induction ss; simpl; auto. Qed.

(** The construction succeeds exactly on the accepted values. *)
Lemma MentorResponse_fields_accepted at_loc d :
  accepted (PDict d) = true ↔ ∃ r, MentorResponse_fields at_loc d = Valid r.
Proof.
  split.
  - unfold accepted, has, may_have, converts_to_bool. intros H.
    repeat (apply andb_true_iff in H as [H ?]).
    unfold MentorResponse_fields, field, required, bool_validator.
    destruct (d !! "mentor_track") as [[]|]; try discriminate.
    destruct (d !! "switched_track") as [sw|]; try discriminate.
    destruct (lax_bool sw); try discriminate.
    destruct (d !! "reply") as [[]|]; try discriminate.
    destruct (d !! "memory_update") as [[]|]; try discriminate.
    destruct (d !! "next_actions") as [[]|]; try discriminate.
    unfold is_list_of_str in *.
    match goal with Hl : forallb is_str ?l = true |- _ =>
      destruct (validate_items_strings
                  (at_loc ++ [Key "next_actions"]) l 0%nat Hl) as (ss & Hss & _)
    end.
    destruct (d !! "clarifying_question") as [[]|]; try discriminate;
      simpl; rewrite Hss; simpl; eauto.
  - intros [r Hr].
    apply MentorResponse_fields_inv in Hr
      as (Hmt & (v & Hsw & Hv) & Hre & Hcq & Hna & Hmu).
    unfold accepted, has, may_have, converts_to_bool.
    rewrite Hmt, Hsw, Hv, Hre, Hna, Hmu. simpl. rewrite strings_kind.
    destruct Hcq as [[-> _] | ->]; [done|]. by rewrite of_opt_str_kind.
Qed.

Lemma conforms_accepted v : conforms v = true → accepted v = true.
Proof.
  destruct v; try done. unfold conforms, accepted, has, converts_to_bool.
  destruct (d !! "switched_track") as [[]|]; simpl;
    rewrite ?andb_false_r; done.
Qed.

(** On a conforming value no conversion takes place. *)
Lemma conforms_switched_track d v b :
  conforms (PDict d) = true →
  d !! "switched_track" = Some v → lax_bool v = Some b → v = PBool b.
Proof.
  unfold conforms, has. intros H Hv. rewrite Hv in H.
  destruct v; simpl in *; rewrite ?andb_false_r in H; try discriminate.
  by intros [= ->].
Qed.

(** ** The handlers, step by step *)

Section Claims.

Context (env : services).

Lemma mentor_assist_try_run request w :
  mentor_assist_try env request w =
  (World (stdout w)
         (calls w ++ [ChatCompletionsCreate (completion_request request)]),
   match chat_completions_create env (completion_request request) with
   | Raise e => Raise e
   | Ok completion =>
       match getitem (choices completion) 0 with
       | Raise e => Raise e
       | Ok choice =>
           match json_loads env (message_content choice) with
           | Raise e => Raise e
           | Ok data => MentorResponse_init env data
           end
       end
   end).
Proof.
  unfold mentor_assist_try, bind, call, lift.
  destruct (chat_completions_create env _) as [completion|]; [|done].
  destruct (getitem _ _) as [choice|]; [|done].
  by destruct (json_loads env _).
Qed.

(** A completion whose first choice carries the text [raw]. *)
Lemma mentor_assist_try_text request completion raw w :
  chat_completions_create env (completion_request request) = Ok completion →
  choices completion !! 0%nat = Some {| message_content := Some raw |} →
  snd (mentor_assist_try env request w) =
  match json_decode env raw with
  | Decoded data => MentorResponse_init env data
  | Malformed msg lineno colno pos =>
      Raise (JSONDecodeError msg lineno colno pos)
  end.
Proof.
  intros Hc Hchoice. rewrite mentor_assist_try_run, Hc. unfold getitem.
  rewrite Hchoice. simpl. by destruct (json_decode env raw).
Qed.

Lemma try_except_ok {A : Type} (body : M A) handler w w' a :
  body w = (w', Ok a) → try_except body handler w = (w', Ok a).
Proof. unfold try_except. by intros ->. Qed.

Lemma try_except_raise {A : Type} (body : M A) handler w w' e :
  body w = (w', Raise e) → try_except body handler w = handler e w'.
Proof. unfold try_except. by intros ->. Qed.

(** The handler of an [except] clause that prints and raises. *)
Lemma print_raise {A : Type} line e (w : world) :
  (print line ;; @raise A e) w = (World (stdout w ++ [line]) (calls w), Raise e).
Proof. reflexivity. Qed.

Lemma api_mentor_assist_ok json_body request w w' r :
  model_validator UserRequest_fields [Key "body"] json_body = Valid request →
  mentor_assist_try env request w = (w', Ok r) →
  api_mentor_assist env json_body w =
  (w', {| status := 200;
          body := JSONBody (PDict (MentorResponse_model_dump r)) |}).
Proof.
  intros Hreq Hrun. unfold api_mentor_assist. rewrite Hreq.
  unfold respond, mentor_assist. by rewrite (try_except_ok _ _ _ _ _ Hrun).
Qed.

Lemma api_mentor_assist_raise json_body request w w' e :
  model_validator UserRequest_fields [Key "body"] json_body = Valid request →
  mentor_assist_try env request w = (w', Raise e) →
  api_mentor_assist env json_body w =
  (World (stdout w' ++ ["Mentor Assist Error: " +:+ str env e]) (calls w'),
   {| status := 500;
      body := JSONBody (PDict {[ "detail" := PStr (str env e) ]}) |}).
Proof.
  intros Hreq Hrun. unfold api_mentor_assist. rewrite Hreq.
  unfold respond, mentor_assist.
  by rewrite (try_except_raise _ _ _ _ _ Hrun), print_raise.
Qed.


Lemma str_not_a_mapping data :
  str env (TypeError (funcstr env
                      +:+ " argument after ** must be a mapping, not "
                      +:+ type_name data)) ≠ EmptyString.
Proof. simpl. by apply append_nonempty_r, append_nonempty_l. Qed.

Lemma str_ValidationError title errors :
  str env (ValidationError title errors) ≠ EmptyString.
Proof. simpl. by apply append_nonempty_r, append_nonempty_l. Qed.

Lemma MentorResponse_init_refused data :
  accepted data = false →
  ∃ e, MentorResponse_init env data = Raise e ∧ str env e ≠ EmptyString.
Proof.
  intros Hacc. unfold MentorResponse_init.
  destruct data as [| | | | | |d];
    try (eexists; split; [reflexivity | apply str_not_a_mapping]).
  destruct (MentorResponse_fields [] d) as [r|errors] eqn:Hr.
  - assert (accepted (PDict d) = true) as Hyes
      by (apply (MentorResponse_fields_accepted []); eauto).
    congruence.
  - eexists; split; [reflexivity | apply str_ValidationError].
Qed.

Lemma MentorResponse_init_conforms d :
  conforms (PDict d) = true →
  ∃ r, MentorResponse_init env (PDict d) = Ok r
       ∧ d !! "mentor_track" = Some (PStr (mentor_track r))
       ∧ d !! "switched_track" = Some (PBool (switched_track r))
       ∧ d !! "reply" = Some (PStr (reply r))
       ∧ ((d !! "clarifying_question" = None ∧ clarifying_question r = None)
          ∨ d !! "clarifying_question"
            = Some (of_opt_str (clarifying_question r)))
       ∧ d !! "next_actions" = Some (PList (PStr <$> next_actions r))
       ∧ d !! "memory_update" = Some (PStr (memory_update r)).
Proof.
  intros Hc. pose proof (conforms_accepted _ Hc) as Hacc.
  apply (MentorResponse_fields_accepted []) in Hacc as [r Hr].
  exists r. unfold MentorResponse_init. rewrite Hr. split; [done|].
  apply MentorResponse_fields_inv in Hr
    as (Hmt & (v & Hsw & Hv) & Hre & Hcq & Hna & Hmu).
  rewrite (conforms_switched_track _ _ _ Hc Hsw Hv) in Hsw. auto 10.
Qed.

Lemma model_dump_dom r :
  dom (MentorResponse_model_dump r) = list_to_set response_fields.
Proof.
  unfold MentorResponse_model_dump. rewrite !dom_insert_L, dom_empty_L.
  simpl. set_solver.
Qed.

(** ** POST /api/mentor-assist *)

(** C1. When the text of the completion scans as JSON and the value
    conforms to the MentorResponse schema, the route answers 200 with a
    MentorResponse, and each of its six fields that the returned JSON
    has is that very value of the JSON, unchanged. *)
Theorem mentor_assist_pass_through json_body request completion raw d w :
  model_validator UserRequest_fields [Key "body"] json_body = Valid request →
  chat_completions_create env (completion_request request) = Ok completion →
  choices completion !! 0%nat = Some {| message_content := Some raw |} →
  json_decode env raw = Decoded (PDict d) →
  conforms (PDict d) = true →
  ∃ r, snd (api_mentor_assist env json_body w)
       = {| status := 200;
            body := JSONBody (PDict (MentorResponse_model_dump r)) |}
       ∧ ∀ k v, k ∈ response_fields → d !! k = Some v →
                MentorResponse_model_dump r !! k = Some v.
Proof.
  intros Hreq Hc Hchoice Hjson Hconf.
  destruct (MentorResponse_init_conforms d Hconf)
    as (r & Hinit & Hmt & Hsw & Hre & Hcq & Hna & Hmu).
  pose proof (mentor_assist_try_text request completion raw w Hc Hchoice)
    as Hrun.
  rewrite Hjson, Hinit in Hrun.
  destruct (mentor_assist_try env request w) as [w' out] eqn:Htry.
  simpl in Hrun. subst out.
  exists r. rewrite (api_mentor_assist_ok _ _ _ _ _ Hreq Htry). split; [done|].
  intros k v Hk Hv. unfold response_fields in Hk.
  repeat (apply elem_of_cons in Hk as [-> | Hk]);
    [.. | by apply elem_of_nil in Hk].
  - rewrite Hmt in Hv. by injection Hv as <-.
  - rewrite Hsw in Hv. by injection Hv as <-.
  - rewrite Hre in Hv. by injection Hv as <-.
  - destruct Hcq as [[Hcq _] | Hcq]; rewrite Hcq in Hv; [done|].
    by injection Hv as <-.
  - rewrite Hna in Hv. by injection Hv as <-.
  - rewrite Hmu in Hv. by injection Hv as <-.
Qed.

(** C10. A returned JSON object that has the required fields is
    accepted whatever else it holds: the answer is 200, its body has
    the six fields of the schema and no other, and a
    [clarifying_question] that the object leaves out comes back as
    null. *)
Theorem mentor_assist_drops_extra json_body request completion raw d w :
  model_validator UserRequest_fields [Key "body"] json_body = Valid request →
  chat_completions_create env (completion_request request) = Ok completion →
  choices completion !! 0%nat = Some {| message_content := Some raw |} →
  json_decode env raw = Decoded (PDict d) →
  conforms (PDict d) = true →
  ∃ out, snd (api_mentor_assist env json_body w)
         = {| status := 200; body := JSONBody (PDict out) |}
         ∧ dom out = list_to_set response_fields
         ∧ (∀ k, k ∉ response_fields → out !! k = None)
         ∧ (d !! "clarifying_question" = None →
            out !! "clarifying_question" = Some PNone).
Proof.
  intros Hreq Hc Hchoice Hjson Hconf.
  destruct (MentorResponse_init_conforms d Hconf)
    as (r & Hinit & _ & _ & _ & Hcq & _).
  pose proof (mentor_assist_try_text request completion raw w Hc Hchoice)
    as Hrun.
  rewrite Hjson, Hinit in Hrun.
  destruct (mentor_assist_try env request w) as [w' res] eqn:Htry.
  simpl in Hrun. subst res.
  exists (MentorResponse_model_dump r).
  rewrite (api_mentor_assist_ok _ _ _ _ _ Hreq Htry).
  split; [done|]. split; [apply model_dump_dom|]. split.
  - intros k Hk. apply not_elem_of_dom. rewrite model_dump_dom.
    by rewrite elem_of_list_to_set.
  - intros Habsent. destruct Hcq as [[_ Hnone] | Hcq]; [|congruence].
    change (MentorResponse_model_dump r !! "clarifying_question")
      with (Some (of_opt_str (clarifying_question r))).
    by rewrite Hnone.
Qed.


(** ** POST /api/voice/speak *)

Lemma TTSRequest_fields_inv at_loc d request :
  TTSRequest_fields at_loc d = Valid request →
  d !! "text" = Some (PStr (text request))
  ∧ ((d !! "voice_id" = None ∧ voice_id request = Some default_voice_id)
     ∨ d !! "voice_id" = Some (of_opt_str (voice_id request)))
  ∧ ((d !! "model_id" = None ∧ model_id request = Some default_model_id)
     ∨ d !! "model_id" = Some (of_opt_str (model_id request)))
  ∧ ((d !! "output_format" = None
      ∧ output_format request = Some default_output_format)
     ∨ d !! "output_format" = Some (of_opt_str (output_format request))).
Proof.
  unfold TTSRequest_fields. intros H.
  apply ap_valid_inv in H as (g4 & fmt & H & Hfmt & ->).
  apply ap_valid_inv in H as (g3 & mdl & H & Hmdl & ->).
  apply ap_valid_inv in H as (g2 & vce & H & Hvce & ->).
  apply ap_valid_inv in H as (g1 & txt & [= <-] & Htxt & ->).
  simpl. apply field_str_inv in Htxt.
  apply field_opt_str_inv in Hvce, Hmdl, Hfmt. auto.
Qed.

Lemma text_to_speech_try_run request w :
  text_to_speech_try env request w =
  (World (stdout w)
         (calls w ++ [TextToSpeechConvert (synthesis_request request)]),
   match text_to_speech_convert env (synthesis_request request) with
   | Raise e => Raise e
   | Ok audio_stream =>
       Ok {| body_iterator := iterfile audio_stream;
             media_type := "audio/mpeg" |}
   end).
Proof.
  unfold text_to_speech_try, bind, call, ret.
  by destruct (text_to_speech_convert env _).
Qed.

Lemma api_voice_speak_ok json_body request w w' r :
  model_validator TTSRequest_fields [Key "body"] json_body = Valid request →
  text_to_speech_try env request w = (w', Ok r) →
  api_voice_speak env json_body w =
  (w', {| status := 200;
          body := StreamBody (body_iterator r) (media_type r) |}).
Proof.
  intros Hreq Hrun. unfold api_voice_speak. rewrite Hreq.
  unfold respond, text_to_speech. by rewrite (try_except_ok _ _ _ _ _ Hrun).
Qed.

Lemma api_voice_speak_raise json_body request w w' e :
  model_validator TTSRequest_fields [Key "body"] json_body = Valid request →
  text_to_speech_try env request w = (w', Raise e) →
  api_voice_speak env json_body w =
  (World (stdout w' ++ ["TTS Error: " +:+ str env e]) (calls w'),
   {| status := 500;
      body := JSONBody (PDict {[ "detail" :=
               PStr ("Text-to-speech failed: " +:+ str env e) ]}) |}).
Proof.
  intros Hreq Hrun. unfold api_voice_speak. rewrite Hreq.
  unfold respond, text_to_speech.
  by rewrite (try_except_raise _ _ _ _ _ Hrun), print_raise.
Qed.

(** Whatever the vendor answers, the route has made exactly one call to
    it, with the fields of the validated request. *)
Lemma api_voice_speak_calls d request w :
  TTSRequest_fields [Key "body"] d = Valid request →
  synthesis_calls (fst (api_voice_speak env (PDict d) w))
  = synthesis_calls w ++ [synthesis_request request].
Proof.
  intros Hreq. pose proof (text_to_speech_try_run request w) as Hrun.
  destruct (text_to_speech_convert env (synthesis_request request)).
  - rewrite (api_voice_speak_ok (PDict d) request _ _ _ Hreq Hrun).
    unfold synthesis_calls. simpl. by rewrite omap_app.
  - rewrite (api_voice_speak_raise (PDict d) request _ _ _ Hreq Hrun).
    unfold synthesis_calls. simpl. by rewrite omap_app.
Qed.

(** C4. A body that leaves out [voice_id], [model_id] or
    [output_format] is forwarded to the speech vendor with
    JBFqnCBsd6RMkjVDRZzb, eleven_monolingual_v1 and mp3_44100_128,
    respectively, in the place of what is left out. *)
Theorem speak_omitted_defaults d request w :
  TTSRequest_fields [Key "body"] d = Valid request →
  ∃ r, synthesis_calls (fst (api_voice_speak env (PDict d) w))
       = synthesis_calls w ++ [r]
       ∧ (d !! "voice_id" = None →
          convert_voice_id r = Some "JBFqnCBsd6RMkjVDRZzb")
       ∧ (d !! "model_id" = None →
          convert_model_id r = Some "eleven_monolingual_v1")
       ∧ (d !! "output_format" = None →
          convert_output_format r = Some "mp3_44100_128").
Proof.
  intros Hreq. exists (synthesis_request request).
  split; [by apply api_voice_speak_calls|].
  apply TTSRequest_fields_inv in Hreq as (_ & Hv & Hm & Hf). simpl.
  repeat split; intros Habsent.
  - destruct Hv as [[_ ->] | Hv]; [done | congruence].
  - destruct Hm as [[_ ->] | Hm]; [done | congruence].
  - destruct Hf as [[_ ->] | Hf]; [done | congruence].
Qed.

(** C9. A [voice_id], [model_id] or [output_format] that the body does
    give is forwarded as given, and so a null is forwarded as None: the
    default stands in only for a key that the body does not have. *)
Theorem speak_null_forwarded d request w :
  TTSRequest_fields [Key "body"] d = Valid request →
  ∃ r, synthesis_calls (fst (api_voice_speak env (PDict d) w))
       = synthesis_calls w ++ [r]
       ∧ (∀ v, d !! "voice_id" = Some v → of_opt_str (convert_voice_id r) = v)
       ∧ (∀ v, d !! "model_id" = Some v → of_opt_str (convert_model_id r) = v)
       ∧ (∀ v, d !! "output_format" = Some v →
               of_opt_str (convert_output_format r) = v)
       ∧ (d !! "voice_id" = Some PNone → convert_voice_id r = None)
       ∧ (d !! "model_id" = Some PNone → convert_model_id r = None)
       ∧ (d !! "output_format" = Some PNone → convert_output_format r = None).
Proof.
  intros Hreq. exists (synthesis_request request).
  split; [by apply api_voice_speak_calls|].
  apply TTSRequest_fields_inv in Hreq as (_ & Hv & Hm & Hf). simpl.
  assert (∀ k o (default : option string),
            (d !! k = None ∧ o = default) ∨ d !! k = Some (of_opt_str o) →
            ∀ v, d !! k = Some v → of_opt_str o = v) as Hgiven.
  { intros k o default [[Hk _] | Hk] v Hkv; congruence. }
  assert (∀ o, of_opt_str o = PNone → o = None) as Hnull
    by (by intros []).
  repeat split; eauto.
Qed.

Lemma iterfile_concat (l : list bytes) :
  mjoin (filter (λ chunk, chunk ≠ []) l) = mjoin l.
Proof.
  induction l as [|chunk l IH]; [done|].
  rewrite filter_cons. case_decide as Hchunk.
  - simpl. by rewrite IH.
  - subst chunk. by rewrite IH.
Qed.

(** C5. The chunks the route streams to the client, put end to end,
    are the chunks of the vendor's stream put end to end; the stream
    to the client ends as the vendor's does. *)
Theorem speak_streams_all_bytes json_body request audio_stream w :
  model_validator TTSRequest_fields [Key "body"] json_body = Valid request →
  text_to_speech_convert env (synthesis_request request) = Ok audio_stream →
  ∃ sent, snd (api_voice_speak env json_body w)
          = {| status := 200; body := StreamBody sent "audio/mpeg" |}
          ∧ mjoin (chunks sent) = mjoin (chunks audio_stream)
          ∧ failure sent = failure audio_stream.
Proof.
  intros Hreq Hconvert. pose proof (text_to_speech_try_run request w) as Hrun.
  rewrite Hconvert in Hrun.
  rewrite (api_voice_speak_ok _ _ _ _ _ Hreq Hrun). simpl.
  exists (iterfile audio_stream). split; [done|]. split; [|done].
  apply iterfile_concat.
Qed.

(** ** The context sent with a chat completion *)

Lemma field_profile_inv at_loc k d fp :
  field (optional (model_validator FounderProfile_fields)) at_loc k
        (Some None) d = Valid fp →
  (d !! k = None ∧ fp = None)
  ∨ (d !! k = Some PNone ∧ fp = None)
  ∨ (∃ pd p, d !! k = Some (PDict pd)
             ∧ FounderProfile_fields (at_loc ++ [Key k]) pd = Valid p
             ∧ fp = Some p).
Proof.
  unfold field. destruct (d !! k) as [[| | | | | |pd]|]; simpl;
    try discriminate; try (intros [= <-]; by auto).
  destruct (FounderProfile_fields (at_loc ++ [Key k]) pd) as [p|] eqn:Hp;
    [|discriminate].
  intros [= <-]. right; right. eauto.
Qed.

Lemma UserRequest_fields_inv at_loc d request :
  UserRequest_fields at_loc d = Valid request →
  d !! "user_message" = Some (PStr (user_message request))
  ∧ ((d !! "founder_profile" = None ∧ founder_profile request = None)
     ∨ (d !! "founder_profile" = Some PNone ∧ founder_profile request = None)
     ∨ (∃ pd p, d !! "founder_profile" = Some (PDict pd)
                ∧ FounderProfile_fields (at_loc ++ [Key "founder_profile"]) pd
                  = Valid p
                ∧ founder_profile request = Some p))
  ∧ ((d !! "active_mentor_track" = None ∧ active_mentor_track request = None)
     ∨ d !! "active_mentor_track"
       = Some (of_opt_str (active_mentor_track request)))
  ∧ ((d !! "memory_context" = None
      ∧ memory_context request = Some EmptyString)
     ∨ d !! "memory_context" = Some (of_opt_str (memory_context request))).
Proof.
  unfold UserRequest_fields. intros H.
  apply ap_valid_inv in H as (g4 & mem & H & Hmem & ->).
  apply ap_valid_inv in H as (g3 & trk & H & Htrk & ->).
  apply ap_valid_inv in H as (g2 & prf & H & Hprf & ->).
  apply ap_valid_inv in H as (g1 & msg & [= <-] & Hmsg & ->).
  simpl. apply field_str_inv in Hmsg. apply field_profile_inv in Hprf.
  apply field_opt_str_inv in Htrk, Hmem. auto.
Qed.

(** Whatever comes back, the route has made exactly one call to the
    completion API, with the context built from the validated request. *)
Lemma api_mentor_assist_context d request w :
  UserRequest_fields [Key "body"] d = Valid request →
  contexts_sent (fst (api_mentor_assist env (PDict d) w))
  = contexts_sent w ++ [user_input_context request].
Proof.
  intros Hreq. pose proof (mentor_assist_try_run request w) as Hrun.
  destruct (mentor_assist_try env request w) as [w' [r|e]] eqn:Htry;
    injection Hrun as -> _.
  - rewrite (api_mentor_assist_ok (PDict d) request _ _ _ Hreq Htry).
    unfold contexts_sent. simpl. by rewrite fmap_app, join_app.
  - rewrite (api_mentor_assist_raise (PDict d) request _ _ _ Hreq Htry).
    unfold contexts_sent. simpl. by rewrite fmap_app, join_app.
Qed.

(** C6, as amended. The context sent to the completion API is the fixed
    block around four texts. The text in the place of the profile is
    Unknown when the body has no [founder_profile], and the JSON
    rendering of the profile when the body has one; the text in the
    place of the active track is None when the body has no
    [active_mentor_track], and the track itself when the body has one
    that is not the empty string. *)
Theorem mentor_assist_context_markers d request w :
  UserRequest_fields [Key "body"] d = Valid request →
  ∃ track profile,
    contexts_sent (fst (api_mentor_assist env (PDict d) w))
    = contexts_sent w
      ++ [context_block (user_message request) track profile
                        (format_opt (memory_context request))]
    ∧ (d !! "founder_profile" = None → profile = "Unknown")
    ∧ (d !! "active_mentor_track" = None → track = "None")
    ∧ (∀ t, d !! "active_mentor_track" = Some (PStr t) →
            t ≠ EmptyString → track = t)
    ∧ (∀ pd, d !! "founder_profile" = Some (PDict pd) →
             ∃ p, FounderProfile_fields [Key "body"; Key "founder_profile"] pd
                  = Valid p
                  ∧ profile = FounderProfile_model_dump_json p).
Proof.
  intros Hreq.
  exists (active_track_text request), (founder_profile_text request).
  split; [by apply api_mentor_assist_context|].
  apply UserRequest_fields_inv in Hreq as (_ & Hprf & Htrk & _).
  unfold active_track_text, founder_profile_text. repeat split.
  - intros Habsent.
    destruct Hprf as [[_ ->] | [[_ ->] | (pd & p & Hpd & _)]];
      [done | done | congruence].
  - intros Habsent. destruct Htrk as [[_ ->] | Htrk]; [done | congruence].
  - intros t Ht Hne. destruct Htrk as [[Htrk _] | Htrk]; [congruence|].
    rewrite Ht in Htrk. destruct (active_mentor_track request) as [t'|];
      [|discriminate].
    injection Htrk as ->. simpl.
    destruct (String.eqb_spec t' EmptyString); [contradiction | done].
  - intros pd Hpd.
    destruct Hprf as [[Hprf _] | [[Hprf _] | (pd' & p & Hpd' & Hp & ->)]];
      [congruence | congruence |].
    rewrite Hpd in Hpd'. injection Hpd' as <-. eauto.
Qed.

(** ** POST /api/voice/transcribe *)

Lemma speech_to_text_try_run file w :
  speech_to_text_try env file w =
  match read file with
  | Raise e => (w, Raise e)
  | Ok audio_bytes =>
      (World (stdout w)
             (calls w ++ [AudioTranscriptionsCreate
                            (whisper_request file audio_bytes)]),
       match audio_transcriptions_create env
               (whisper_request file audio_bytes) with
       | Raise e => Raise e
       | Ok transcript =>
           Ok {[ "text" := PStr (transcript_text transcript) ]}
       end)
  end.
Proof.
  unfold speech_to_text_try, bind, call, lift, ret.
  destruct (read file) as [audio_bytes|]; [|done].
  by destruct (audio_transcriptions_create env _).
Qed.

Lemma api_voice_transcribe_ok file w w' out :
  speech_to_text_try env file w = (w', Ok out) →
  api_voice_transcribe env (Some file) w =
  (w', {| status := 200; body := JSONBody (PDict out) |}).
Proof.
  intros Hrun. unfold api_voice_transcribe, respond, speech_to_text.
  by rewrite (try_except_ok _ _ _ _ _ Hrun).
Qed.

Lemma api_voice_transcribe_raise file w w' e :
  speech_to_text_try env file w = (w', Raise e) →
  api_voice_transcribe env (Some file) w =
  (World (stdout w' ++ ["STT Error: " +:+ str env e]) (calls w'),
   {| status := 500;
      body := JSONBody (PDict {[ "detail" :=
               PStr ("Transcription failed: " +:+ str env e) ]}) |}).
Proof.
  intros Hrun. unfold api_voice_transcribe, respond, speech_to_text.
  by rewrite (try_except_raise _ _ _ _ _ Hrun), print_raise.
Qed.

(** C7. The bytes of an upload without a file name (the name is
    empty, as it is for a nameless file part of a form, or there is no
    name at all) go to the transcription vendor under the name
    audio.mp3; and whatever transcript the vendor returns for an upload,
    the answer is 200 with the object that has that text, as it is,
    under [text] and nothing else. *)
Theorem transcribe_unnamed_upload :
  (∀ file audio_bytes w,
     filename file = Some EmptyString ∨ filename file = None →
     read file = Ok audio_bytes →
     transcription_calls (fst (api_voice_transcribe env (Some file) w))
     = transcription_calls w
       ++ [ {| transcription_model := "whisper-1";
               file_name := "audio.mp3";
               file_bytes := audio_bytes |} ])
  ∧ (∀ file audio_bytes transcript w,
       read file = Ok audio_bytes →
       audio_transcriptions_create env (whisper_request file audio_bytes)
       = Ok transcript →
       snd (api_voice_transcribe env (Some file) w)
       = {| status := 200;
            body := JSONBody
                      (PDict {[ "text" := PStr (transcript_text transcript) ]})
         |}).
Proof.
  split.
  - intros file audio_bytes w Hname Hread.
    pose proof (speech_to_text_try_run file w) as Hrun. rewrite Hread in Hrun.
    assert (whisper_request file audio_bytes
            = {| transcription_model := "whisper-1";
                 file_name := "audio.mp3";
                 file_bytes := audio_bytes |}) as <-
      by (unfold whisper_request; by destruct Hname as [-> | ->]).
    destruct (audio_transcriptions_create env _).
    + rewrite (api_voice_transcribe_ok _ _ _ _ Hrun).
      unfold transcription_calls. simpl. by rewrite omap_app.
    + rewrite (api_voice_transcribe_raise _ _ _ _ Hrun).
      unfold transcription_calls. simpl. by rewrite omap_app.
  - intros file audio_bytes transcript w Hread Hvendor.
    pose proof (speech_to_text_try_run file w) as Hrun.
    rewrite Hread, Hvendor in Hrun.
    by rewrite (api_voice_transcribe_ok _ _ _ _ Hrun).
Qed.

(** ** Failures *)

(** C3, as amended. On each of the three routes, an exception raised by
    the statements under the handler's [try] (a vendor or network
    error, a remote response that does not scan or validate, an upload
    that cannot be read) is printed and answered with status 500 and a
    detail that carries the text of the exception: the text alone on
    /api/mentor-assist, the text after a fixed prefix on the two voice
    routes. *)
Theorem handler_exception_is_500 :
  (∀ json_body request w w' e,
     model_validator UserRequest_fields [Key "body"] json_body
     = Valid request →
     mentor_assist_try env request w = (w', Raise e) →
     api_mentor_assist env json_body w =
     (World (stdout w' ++ ["Mentor Assist Error: " +:+ str env e]) (calls w'),
      {| status := 500;
         body := JSONBody (PDict {[ "detail" := PStr (str env e) ]}) |}))
  ∧ (∀ json_body request w w' e,
       model_validator TTSRequest_fields [Key "body"] json_body
       = Valid request →
       text_to_speech_try env request w = (w', Raise e) →
       api_voice_speak env json_body w =
       (World (stdout w' ++ ["TTS Error: " +:+ str env e]) (calls w'),
        {| status := 500;
           body := JSONBody (PDict {[ "detail" :=
                    PStr ("Text-to-speech failed: " +:+ str env e) ]}) |}))
  ∧ (∀ file w w' e,
       speech_to_text_try env file w = (w', Raise e) →
       api_voice_transcribe env (Some file) w =
       (World (stdout w' ++ ["STT Error: " +:+ str env e]) (calls w'),
        {| status := 500;
           body := JSONBody (PDict {[ "detail" :=
                    PStr ("Transcription failed: " +:+ str env e) ]}) |})).
Proof.
  split; [|split].
  - intros *. apply api_mentor_assist_raise.
  - intros *. apply api_voice_speak_raise.
  - intros *. apply api_voice_transcribe_raise.
Qed.

(** ** Start-up *)

(** C8, as amended. With the .env file loaded, if either key is not in
    the environment the process ends with an error at initialisation
    and answers no request; if both keys are there and neither is the
    empty string, initialisation passes the check and the requests are
    served. *)
Theorem startup_key_check dotenv environ requests :
  (getenv (load_dotenv dotenv environ) OPENAI_API_KEY = None
   ∨ getenv (load_dotenv dotenv environ) ELEVENLABS_API_KEY = None →
   ∃ msg, module_init dotenv environ = Raise (ValueError msg)
          ∧ run env dotenv environ requests = Raise (ValueError msg))
  ∧ (∀ k1 k2,
       getenv (load_dotenv dotenv environ) OPENAI_API_KEY = Some k1 →
       getenv (load_dotenv dotenv environ) ELEVENLABS_API_KEY = Some k2 →
       k1 ≠ EmptyString → k2 ≠ EmptyString →
       module_init dotenv environ
       = Ok {| openai_api_key := Some k1; elevenlabs_api_key := Some k2 |}
       ∧ run env dotenv environ requests
         = Ok (snd (serve env requests start))).
Proof.
  unfold run, module_init. split.
  - intros [Hk | Hk].
    + rewrite Hk. simpl. eauto.
    + rewrite Hk. simpl.
      destruct (negb (truthy _)); eauto.
  - intros k1 k2 Hk1 Hk2 Hne1 Hne2. rewrite Hk1, Hk2. simpl.
    destruct (String.eqb_spec k1 EmptyString); [contradiction|].
    destruct (String.eqb_spec k2 EmptyString); [contradiction|]. done.
Qed.

End Claims.

(** * The properties on concrete runs *)

Import Mock.

(** C1 on a run: the completion carries [plain_text]. *)
Lemma mentor_assist_pass_through_witness :
  conforms (PDict plain_data) = true
  ∧ ∃ r, snd (api_mentor_assist (completing plain_text) hello start)
         = {| status := 200;
              body := JSONBody (PDict (MentorResponse_model_dump r)) |}
         ∧ ∀ k v, k ∈ response_fields → plain_data !! k = Some v →
                  MentorResponse_model_dump r !! k = Some v.
Proof.
  split; [reflexivity|].
  eapply (mentor_assist_pass_through (completing plain_text) hello _ _
            plain_text plain_data start); reflexivity.
Defined.

(** C10 on a run: the completion carries [extra_text], which has a
    [confidence] and no [clarifying_question]. *)
Lemma mentor_assist_drops_extra_witness :
  extra_data !! "confidence" = Some (PInt 3)
  ∧ extra_data !! "clarifying_question" = None
  ∧ ∃ out, snd (api_mentor_assist (completing extra_text) hello start)
           = {| status := 200; body := JSONBody (PDict out) |}
           ∧ dom out = list_to_set response_fields
           ∧ (∀ k, k ∉ response_fields → out !! k = None)
           ∧ (extra_data !! "clarifying_question" = None →
              out !! "clarifying_question" = Some PNone).
Proof.
  split; [reflexivity|]. split; [reflexivity|].
  eapply (mentor_assist_drops_extra (completing extra_text) hello _ _
            extra_text extra_data start); reflexivity.
Defined.



(** C3 as stated fails: the vendor's stream breaks after its first
    chunk. The handler has returned by then, and the answer is a 200
    stream that ends in the vendor's exception, not a 500. A form
    without the [file] part is likewise not answered 500: the framework
    answers 422 without calling the handler. *)
Lemma broken_stream_is_200 :
  text_to_speech_convert (mock no_completion broken_audio no_transcript)
    {| convert_voice_id := Some default_voice_id;
       convert_model_id := Some default_model_id;
       convert_text := "Hi";
       convert_output_format := Some default_output_format |}
  = Ok {| chunks := [riff];
          failure := Some (VendorError "connection reset") |}
  ∧ snd (route (mock no_completion broken_audio no_transcript)
               (PostVoiceSpeak say_hi) start)
    = {| status := 200;
         body := StreamBody
                   {| chunks := [riff];
                      failure := Some (VendorError "connection reset") |}
                   "audio/mpeg" |}
  ∧ status (snd (route (mock no_completion broken_audio no_transcript)
                       (PostVoiceSpeak say_hi) start)) ≠ 500
  ∧ status (snd (route (mock no_completion broken_audio no_transcript)
                       (PostVoiceTranscribe None) start)) = 422.
Proof. repeat split; try reflexivity. vm_compute. discriminate. Qed.

(** C3 as amended, on runs: the completion has no choice; the speech
    vendor refuses the call; the upload cannot be read. *)
Lemma handler_exception_is_500_witness :
  snd (api_mentor_assist (mock no_completion silence no_transcript)
                         hello start)
  = {| status := 500;
       body := JSONBody (PDict {[ "detail" :=
                PStr "list index out of range" ]}) |}
  ∧ snd (api_voice_speak
           (mock no_completion (Raise (VendorError "quota exceeded"))
                 no_transcript) say_hi start)
    = {| status := 500;
         body := JSONBody (PDict {[ "detail" :=
                  PStr "Text-to-speech failed: quota exceeded" ]}) |}
  ∧ snd (api_voice_transcribe (mock no_completion silence no_transcript)
           (Some {| filename := Some "a.wav";
                    read := Raise (VendorError "closed file") |}) start)
    = {| status := 500;
         body := JSONBody (PDict {[ "detail" :=
                  PStr "Transcription failed: closed file" ]}) |}.
Proof.
  split; [|split].
  - pose proof (proj1 (handler_exception_is_500
                         (mock no_completion silence no_transcript))
                  hello _ start _ _ eq_refl eq_refl) as H.
    exact (f_equal snd H).
  - pose proof (proj1 (proj2 (handler_exception_is_500
                         (mock no_completion
                               (Raise (VendorError "quota exceeded"))
                               no_transcript)))
                  say_hi _ start _ _ eq_refl eq_refl) as H.
    exact (f_equal snd H).
  - pose proof (proj2 (proj2 (handler_exception_is_500
                         (mock no_completion silence no_transcript)))
                  {| filename := Some "a.wav";
                     read := Raise (VendorError "closed file") |}
                  start _ _ eq_refl) as H.
    exact (f_equal snd H).
Defined.

(** C4 on a run: the body has [text] only. *)
Lemma speak_omitted_defaults_witness :
  ∃ r, synthesis_calls
         (fst (api_voice_speak (completing plain_text) say_hi start))
       = synthesis_calls start ++ [r]
       ∧ convert_voice_id r = Some "JBFqnCBsd6RMkjVDRZzb"
       ∧ convert_model_id r = Some "eleven_monolingual_v1"
       ∧ convert_output_format r = Some "mp3_44100_128".
Proof.
  destruct (speak_omitted_defaults (completing plain_text)
              {[ "text" := PStr "Hi" ]}
              {| text := "Hi";
                 voice_id := Some default_voice_id;
                 model_id := Some default_model_id;
                 output_format := Some default_output_format |}
              start)
    as (r & Hcalls & Hv & Hm & Hf); [reflexivity|].
  exists r. split; [exact Hcalls|].
  split; [exact (Hv eq_refl)|]. split; [exact (Hm eq_refl) | exact (Hf eq_refl)].
Defined.

(** C9 on a run: the body gives null for the three parameters. *)
Lemma speak_null_forwarded_witness :
  ∃ r, synthesis_calls
         (fst (api_voice_speak (completing plain_text) say_hi_nulls start))
       = synthesis_calls start ++ [r]
       ∧ convert_voice_id r = None
       ∧ convert_model_id r = None
       ∧ convert_output_format r = None.
Proof.
  destruct (speak_null_forwarded (completing plain_text)
              (<["text" := PStr "Hi"]>
               (<["voice_id" := PNone]>
                (<["model_id" := PNone]>
                 (<["output_format" := PNone]> ∅))))
              {| text := "Hi"; voice_id := None; model_id := None;
                 output_format := None |}
              start)
    as (r & Hcalls & _ & _ & _ & Hv & Hm & Hf); [reflexivity|].
  exists r. split; [exact Hcalls|].
  split; [exact (Hv eq_refl)|]. split; [exact (Hm eq_refl) | exact (Hf eq_refl)].
Defined.

(** C5 on a run: the vendor's stream has an empty chunk between two
    others. *)
Lemma speak_streams_all_bytes_witness :
  ∃ sent, snd (api_voice_speak
                 (mock no_completion
                       (Ok {| chunks := [riff; []; [Byte.x00]];
                              failure := None |})
                       no_transcript) say_hi start)
          = {| status := 200; body := StreamBody sent "audio/mpeg" |}
          ∧ mjoin (chunks sent) = riff ++ [Byte.x00]
          ∧ failure sent = None.
Proof.
  apply (speak_streams_all_bytes
           (mock no_completion
                 (Ok {| chunks := [riff; []; [Byte.x00]]; failure := None |})
                 no_transcript)
           say_hi
           {| text := "Hi";
              voice_id := Some default_voice_id;
              model_id := Some default_model_id;
              output_format := Some default_output_format |}
           {| chunks := [riff; []; [Byte.x00]]; failure := None |}
           start); reflexivity.
Defined.

(** C6 as stated fails: the body has a profile and an active track,
    and the track is the empty string. The context sent has None in
    the place of the track, not the track as it is. *)
Lemma empty_track_is_not_verbatim :
  match track_and_profile EmptyString with
  | PDict d =>
      d !! "active_mentor_track" = Some (PStr EmptyString)
      ∧ d !! "founder_profile" = Some (PDict ∅)
  | _ => False
  end
  ∧ contexts_sent (fst (api_mentor_assist (completing plain_text)
                          (track_and_profile EmptyString) start))
    = [ context_block "hi" "None"
          (FounderProfile_model_dump_json
             {| industry := None; stage := None; key_challenges := Some [] |})
          EmptyString ]
  ∧ contexts_sent (fst (api_mentor_assist (completing plain_text)
                          (track_and_profile EmptyString) start))
    ≠ [ context_block "hi" EmptyString
          (FounderProfile_model_dump_json
             {| industry := None; stage := None; key_challenges := Some [] |})
          EmptyString ].
Proof.
  split; [by split|]. split; [reflexivity|].
  vm_compute. discriminate.
Qed.

(** C6 as amended, on a run: the body has a profile and the active
    track Sales. *)
Lemma mentor_assist_context_markers_witness :
  contexts_sent (fst (api_mentor_assist (completing plain_text)
                        (track_and_profile "Sales") start))
  = [ context_block "hi" "Sales"
        (FounderProfile_model_dump_json
           {| industry := None; stage := None; key_challenges := Some [] |})
        EmptyString ].
Proof.
  destruct (mentor_assist_context_markers (completing plain_text)
              (<["user_message" := PStr "hi"]>
               (<["active_mentor_track" := PStr "Sales"]>
                (<["founder_profile" := PDict ∅]> ∅)))
              {| user_message := "hi";
                 founder_profile :=
                   Some {| industry := None; stage := None;
                           key_challenges := Some [] |};
                 active_mentor_track := Some "Sales";
                 memory_context := Some EmptyString |}
              start)
    as (track & profile & Hsent & _ & _ & Htrack & Hprofile);
    [reflexivity|].
  rewrite (Htrack "Sales" eq_refl ltac:(discriminate)) in Hsent.
  destruct (Hprofile ∅ eq_refl) as (p & Hp & Hdump).
  injection Hp as <-. rewrite Hdump in Hsent. exact Hsent.
Defined.

(** C7 on a run: an upload whose file name is empty, and a vendor
    that returns a transcript. *)
Lemma transcribe_unnamed_upload_witness :
  transcription_calls
    (fst (api_voice_transcribe
            (mock no_completion silence
                  (Ok {| transcript_text := "hello there" |}))
            (Some {| filename := Some EmptyString; read := Ok riff |})
            start))
  = [ {| transcription_model := "whisper-1";
         file_name := "audio.mp3";
         file_bytes := riff |} ]
  ∧ snd (api_voice_transcribe
           (mock no_completion silence
                 (Ok {| transcript_text := "hello there" |}))
           (Some {| filename := Some EmptyString; read := Ok riff |})
           start)
    = {| status := 200;
         body := JSONBody (PDict {[ "text" := PStr "hello there" ]}) |}.
Proof.
  destruct (transcribe_unnamed_upload
              (mock no_completion silence
                    (Ok {| transcript_text := "hello there" |})))
    as [Hcall Hanswer].
  split.
  - apply (Hcall {| filename := Some EmptyString; read := Ok riff |} riff
             start); [by left | reflexivity].
  - apply (Hanswer {| filename := Some EmptyString; read := Ok riff |} riff
             {| transcript_text := "hello there" |} start); reflexivity.
Defined.

(** C8 as stated fails: both keys are set, the first to the empty
    string, and initialisation ends with an error. *)
Lemma empty_key_fails_startup :
  is_Some (getenv (load_dotenv ∅ (environ_with EmptyString "sk_1"))
                  OPENAI_API_KEY)
  ∧ is_Some (getenv (load_dotenv ∅ (environ_with EmptyString "sk_1"))
                    ELEVENLABS_API_KEY)
  ∧ module_init ∅ (environ_with EmptyString "sk_1")
    = Raise (ValueError "OPENAI_API_KEY is missing in .env")
  ∧ run (completing plain_text) ∅ (environ_with EmptyString "sk_1")
        [PostMentorAssist hello]
    = Raise (ValueError "OPENAI_API_KEY is missing in .env").
Proof. repeat split; try reflexivity; by eexists. Qed.

(** C8 as amended, on runs: the second key is in neither the
    environment nor the .env file; both keys are there, one of them
    from the .env file. *)
Lemma startup_key_check_witness :
  (∃ msg, module_init ∅ {[ OPENAI_API_KEY := "sk_0" ]}
          = Raise (ValueError msg)
          ∧ run (completing plain_text) ∅ {[ OPENAI_API_KEY := "sk_0" ]}
                [PostMentorAssist hello]
            = Raise (ValueError msg))
  ∧ module_init {[ ELEVENLABS_API_KEY := "sk_1" ]}
                {[ OPENAI_API_KEY := "sk_0" ]}
    = Ok {| openai_api_key := Some "sk_0";
            elevenlabs_api_key := Some "sk_1" |}
  ∧ run (completing plain_text) {[ ELEVENLABS_API_KEY := "sk_1" ]}
        {[ OPENAI_API_KEY := "sk_0" ]} [PostMentorAssist hello]
    = Ok (snd (serve (completing plain_text) [PostMentorAssist hello] start)).
Proof.
  split.
  - apply (proj1 (startup_key_check (completing plain_text) ∅
                    {[ OPENAI_API_KEY := "sk_0" ]} [PostMentorAssist hello])).
    right. reflexivity.
  - apply (proj2 (startup_key_check (completing plain_text)
                    {[ ELEVENLABS_API_KEY := "sk_1" ]}
                    {[ OPENAI_API_KEY := "sk_0" ]} [PostMentorAssist hello])
             "sk_0" "sk_1"); [reflexivity | reflexivity | discriminate..].
Defined.

(** * Further properties of the handlers *)

(** ** Which bodies reach a handler *)

Lemma field_opt_list_inv at_loc k default d o :
  field (optional (list_validator str_validator)) at_loc k (Some default) d
  = Valid o →
  d !! k = None ∨ ∃ v, d !! k = Some v ∧ is_str_list_or_null v = true.
Proof.
  unfold field. destruct (d !! k) as [v|]; [|by left]. intros H. right.
  exists v. split; [done|].
  destruct v; simpl in *; try discriminate; try done.
  destruct (validate_items str_validator (at_loc ++ [Key k]) 0 l) as [ss|]
    eqn:Hl; [|discriminate].
  apply validate_items_inv in Hl as ->. apply strings_kind.
Qed.

Lemma may_have_opt_str d k at_loc default :
  may_have d k is_str_or_null = true →
  ∃ o, field (optional str_validator) at_loc k (Some default) d = Valid o.
Proof.
  unfold may_have, field. destruct (d !! k) as [[]|]; simpl;
    try discriminate; eauto.
Qed.

Lemma may_have_opt_str_inv d k at_loc default o :
  field (optional str_validator) at_loc k (Some default) d = Valid o →
  may_have d k is_str_or_null = true.
Proof.
  intros H. apply field_opt_str_inv in H as [[H _] | H];
    unfold may_have; rewrite H; [done | apply of_opt_str_kind].
Qed.

Lemma has_str d k at_loc :
  has d k is_str = true →
  ∃ s, field str_validator at_loc k required d = Valid s.
Proof.
  unfold has, field. destruct (d !! k) as [[]|]; simpl;
    try discriminate; eauto.
Qed.

Lemma has_str_inv d k at_loc s :
  field str_validator at_loc k required d = Valid s →
  has d k is_str = true.
Proof. intros H. apply field_str_inv in H. unfold has. by rewrite H. Qed.

(** A profile is constructed exactly from the values of [profile_shape]
    that are objects. *)
Lemma FounderProfile_fields_shape at_loc d :
  profile_shape (PDict d) = true
  ↔ ∃ p, FounderProfile_fields at_loc d = Valid p.
Proof.
  split.
  - simpl. intros H. repeat (apply andb_true_iff in H as [H ?]).
    unfold FounderProfile_fields.
    destruct (may_have_opt_str d "industry" at_loc None) as [i ->]; [done|].
    destruct (may_have_opt_str d "stage" at_loc None) as [st ->]; [done|].
    unfold may_have, field in *.
    destruct (d !! "key_challenges") as [[]|]; simpl in *;
      try discriminate; eauto.
    match goal with Hl : forallb is_str ?l = true |- _ =>
      destruct (validate_items_strings
                  (at_loc ++ [Key "key_challenges"]) l 0%nat Hl)
        as (ss & -> & _)
    end.
    simpl. eauto.
  - intros [p H]. unfold FounderProfile_fields in H.
    apply ap_valid_inv in H as (g3 & kc & H & Hkc & ->).
    apply ap_valid_inv in H as (g2 & st & H & Hst & ->).
    apply ap_valid_inv in H as (g1 & i & [= <-] & Hi & ->).
    apply may_have_opt_str_inv in Hi, Hst. simpl. rewrite Hi, Hst. simpl.
    apply field_opt_list_inv in Hkc as [Hkc | (v & Hkc & Hv)];
      unfold may_have; by rewrite Hkc.
Qed.

Lemma UserRequest_shape at_loc json_body :
  user_request_shape json_body = true
  ↔ ∃ request, model_validator UserRequest_fields at_loc json_body
               = Valid request.
Proof.
  destruct json_body as [| | | | | |d];
    try (split; [discriminate | by intros [? ?]]).
  simpl. split.
  - intros H. apply andb_true_iff in H as [H Hmem].
    apply andb_true_iff in H as [H Htrk].
    apply andb_true_iff in H as [Hmsg Hprf].
    assert (∃ fp, field (optional (model_validator FounderProfile_fields))
                        at_loc "founder_profile" (Some None) d = Valid fp)
      as [fp Hfp].
    { unfold may_have in Hprf. unfold field.
      destruct (d !! "founder_profile") as [v|]; [|eauto].
      destruct v as [| | | | | |pd]; try (simpl in Hprf; discriminate).
      - simpl. eauto.
      - apply (FounderProfile_fields_shape
                 (at_loc ++ [Key "founder_profile"]) pd) in Hprf as [p Hp].
        unfold optional, model_validator. rewrite Hp. eauto. }
    unfold UserRequest_fields. rewrite Hfp.
    destruct (has_str d "user_message" at_loc) as [m ->]; [done|].
    destruct (may_have_opt_str d "active_mentor_track" at_loc None)
      as [t ->]; [done|].
    destruct (may_have_opt_str d "memory_context" at_loc (Some EmptyString))
      as [mem ->]; [done|].
    simpl. eauto.
  - intros [request H]. unfold UserRequest_fields in H.
    apply ap_valid_inv in H as (g4 & mem & H & Hmem & ->).
    apply ap_valid_inv in H as (g3 & trk & H & Htrk & ->).
    apply ap_valid_inv in H as (g2 & prf & H & Hprf & ->).
    apply ap_valid_inv in H as (g1 & msg & [= <-] & Hmsg & ->).
    apply has_str_inv in Hmsg. apply may_have_opt_str_inv in Htrk, Hmem.
    rewrite Hmsg, Htrk, Hmem. simpl. rewrite !andb_true_r.
    apply field_profile_inv in Hprf
      as [[Hprf _] | [[Hprf _] | (pd & p & Hprf & Hp & _)]];
      unfold may_have; rewrite Hprf; try done.
    apply (FounderProfile_fields_shape
             (at_loc ++ [Key "founder_profile"]) pd). eauto.
Qed.

Lemma TTSRequest_shape at_loc json_body :
  tts_request_shape json_body = true
  ↔ ∃ request, model_validator TTSRequest_fields at_loc json_body
               = Valid request.
Proof.
  destruct json_body as [| | | | | |d];
    try (split; [discriminate | by intros [? ?]]).
  simpl. split.
  - intros H. repeat (apply andb_true_iff in H as [H ?]).
    unfold TTSRequest_fields.
    destruct (has_str d "text" at_loc) as [t ->]; [done|].
    destruct (may_have_opt_str d "voice_id" at_loc (Some default_voice_id))
      as [v ->]; [done|].
    destruct (may_have_opt_str d "model_id" at_loc (Some default_model_id))
      as [m ->]; [done|].
    destruct (may_have_opt_str d "output_format" at_loc
                (Some default_output_format)) as [f ->]; [done|].
    simpl. eauto.
  - intros [request H]. unfold TTSRequest_fields in H.
    apply ap_valid_inv in H as (g4 & fmt & H & Hfmt & ->).
    apply ap_valid_inv in H as (g3 & mdl & H & Hmdl & ->).
    apply ap_valid_inv in H as (g2 & vce & H & Hvce & ->).
    apply ap_valid_inv in H as (g1 & txt & [= <-] & Htxt & ->).
    apply has_str_inv in Htxt. apply may_have_opt_str_inv in Hvce, Hmdl, Hfmt.
    by rewrite Htxt, Hvce, Hmdl, Hfmt.
Qed.

(** ** How a request ends *)

Section Outcomes.

Context (env : services).

Lemma well_formed_mentor_assist json_body :
  user_request_shape json_body = false ↔
  ∃ errors, model_validator UserRequest_fields [Key "body"] json_body
            = Invalid errors.
Proof.
  pose proof (UserRequest_shape [Key "body"] json_body) as Hshape.
  destruct (model_validator UserRequest_fields [Key "body"] json_body)
    as [request|errors].
  - rewrite (proj2 Hshape) by eauto. split; [discriminate | by intros [? ?]].
  - destruct (user_request_shape json_body).
    + destruct (proj1 Hshape eq_refl) as [? ?]. discriminate.
    + split; eauto.
Qed.

Lemma well_formed_speak json_body :
  tts_request_shape json_body = false ↔
  ∃ errors, model_validator TTSRequest_fields [Key "body"] json_body
            = Invalid errors.
Proof.
  pose proof (TTSRequest_shape [Key "body"] json_body) as Hshape.
  destruct (model_validator TTSRequest_fields [Key "body"] json_body)
    as [request|errors].
  - rewrite (proj2 Hshape) by eauto. split; [discriminate | by intros [? ?]].
  - destruct (tts_request_shape json_body).
    + destruct (proj1 Hshape eq_refl) as [? ?]. discriminate.
    + split; eauto.
Qed.

(** The three ways a request can end, with what the process has
    printed and asked of the vendors by then. *)
Lemma route_cases r w :
  (well_formed r = false
   ∧ ∃ errors, route env r w = (w, unprocessable errors))
  ∨ (well_formed r = true
     ∧ ∃ cs answer, (length cs ≤ 1)%nat
       ∧ route env r w
         = (World (stdout w) (calls w ++ cs),
            {| status := 200; body := answer |}))
  ∨ (well_formed r = true
     ∧ ∃ cs line detail, (length cs ≤ 1)%nat
       ∧ route env r w
         = (World (stdout w ++ [line]) (calls w ++ cs),
            {| status := 500;
               body := JSONBody (PDict {[ "detail" := PStr detail ]}) |})).
Proof.
  destruct r as [json_body | json_body | [file|]]; cbn [route well_formed].
  - destruct (model_validator UserRequest_fields [Key "body"] json_body)
      as [request|errors] eqn:Hreq.
    + assert (user_request_shape json_body = true) as ->
        by (apply (UserRequest_shape [Key "body"]); eauto).
      right. pose proof (mentor_assist_try_run env request w) as Hrun.
      destruct (mentor_assist_try env request w) as [w' [r|e]] eqn:Htry;
        injection Hrun as -> _.
      * left. split; [done|].
        rewrite (api_mentor_assist_ok env _ _ _ _ _ Hreq Htry).
        eexists [_], _. split; [simpl; lia | done].
      * right. split; [done|].
        rewrite (api_mentor_assist_raise env _ _ _ _ _ Hreq Htry).
        eexists [_], _, _. split; [simpl; lia | done].
    + left. split; [apply well_formed_mentor_assist; eauto|].
      exists errors. unfold api_mentor_assist. by rewrite Hreq.
  - destruct (model_validator TTSRequest_fields [Key "body"] json_body)
      as [request|errors] eqn:Hreq.
    + assert (tts_request_shape json_body = true) as ->
        by (apply (TTSRequest_shape [Key "body"]); eauto).
      right. pose proof (text_to_speech_try_run env request w) as Hrun.
      destruct (text_to_speech_convert env (synthesis_request request)).
      * left. split; [done|].
        rewrite (api_voice_speak_ok env _ _ _ _ _ Hreq Hrun).
        eexists [_], _. split; [simpl; lia | done].
      * right. split; [done|].
        rewrite (api_voice_speak_raise env _ _ _ _ _ Hreq Hrun).
        eexists [_], _, _. split; [simpl; lia | done].
    + left. split; [apply well_formed_speak; eauto|].
      exists errors. unfold api_voice_speak. by rewrite Hreq.
  - right. pose proof (speech_to_text_try_run env file w) as Hrun.
    destruct (read file) as [audio_bytes|e].
    + destruct (audio_transcriptions_create env _).
      * left. split; [done|].
        rewrite (api_voice_transcribe_ok env _ _ _ _ Hrun).
        eexists [_], _. split; [simpl; lia | done].
      * right. split; [done|].
        rewrite (api_voice_transcribe_raise env _ _ _ _ Hrun).
        eexists [_], _, _. split; [simpl; lia | done].
    + right. split; [done|].
      rewrite (api_voice_transcribe_raise env _ _ _ _ Hrun).
      eexists [], _, _. split; [simpl; lia|]. by rewrite app_nil_r.
  - left. split; [done|]. eauto.
Qed.

(** X1. A request is answered 422 exactly when its body is not of the
    shape its model declares (or the form has no file); the handler is
    then not called: nothing is printed and no vendor is asked. *)
Theorem route_unprocessable_iff r w :
  (status (snd (route env r w)) = 422 ↔ well_formed r = false)
  ∧ (well_formed r = false → fst (route env r w) = w).
Proof.
  destruct (route_cases r w)
    as [[Hwf [errors ->]]
       | [[Hwf (cs & answer & _ & ->)] | [Hwf (cs & l & dt & _ & ->)]]];
    simpl; rewrite Hwf; split; try done; split; done.
Qed.

(** X2. Every answer has status 200, 422 or 500. A 500 always carries
    a JSON detail and comes with exactly one printed line; with any
    other status nothing is printed. No exception leaves a handler
    unconverted, so the server's own plain-text 500 never occurs. *)
Theorem route_outcome r w :
  (status (snd (route env r w)) = 200
   ∨ status (snd (route env r w)) = 422
   ∨ status (snd (route env r w)) = 500)
  ∧ (status (snd (route env r w)) = 500 →
     ∃ detail line,
       body (snd (route env r w))
       = JSONBody (PDict {[ "detail" := PStr detail ]})
       ∧ stdout (fst (route env r w)) = stdout w ++ [line])
  ∧ (status (snd (route env r w)) ≠ 500 →
     stdout (fst (route env r w)) = stdout w).
Proof.
  destruct (route_cases r w)
    as [[Hwf [errors ->]]
       | [[Hwf (cs & answer & _ & ->)] | [Hwf (cs & l & dt & _ & ->)]]];
    simpl; (split; [auto|]); split; try done; eauto.
Qed.

(** A request makes at most one call to a vendor, whatever the vendor
    answers; the calls made before stay as they were. *)
Lemma route_at_most_one_call r w :
  ∃ cs, calls (fst (route env r w)) = calls w ++ cs ∧ (length cs ≤ 1)%nat.
Proof.
  destruct (route_cases r w)
    as [[Hwf [errors ->]]
       | [[Hwf (cs & answer & Hcs & ->)] | [Hwf (cs & l & dt & Hcs & ->)]]];
    simpl; eauto.
  exists []. split; [by rewrite app_nil_r | simpl; lia].
Qed.

End Outcomes.

(** ** More on each handler *)

Section Details.

Context (env : services).

(** X3. Serving a sequence of requests asks the vendors at most once
    per request, whatever they answer (there is no retry), and leaves
    the record of earlier calls as it was. *)
Theorem serve_calls_bounded requests w :
  ∃ cs, calls (fst (serve env requests w)) = calls w ++ cs
        ∧ (length cs ≤ length requests)%nat.
Proof.
  revert w. induction requests as [|r rest IH]; intros w.
  - exists []. split; [by rewrite app_nil_r | done].
  - cbn [serve]. destruct (route_at_most_one_call env r w) as (c1 & Hc1 & Hl1).
    destruct (route env r w) as [w1 response]. cbn [fst] in Hc1.
    destruct (IH w1) as (c2 & Hc2 & Hl2).
    destruct (serve env rest w1) as [w2 responses]. cbn [fst] in *.
    exists (c1 ++ c2). rewrite Hc2, Hc1, app_assoc. split; [done|].
    rewrite length_app. simpl. lia.
Qed.

(** X5. Every request that validates leads to exactly one call to the
    completion API, whatever comes back: model gpt-4-turbo, JSON mode,
    temperature 0.7, and two messages, the system prompt and then the
    context built from the request. *)
Theorem mentor_assist_one_completion_call json_body request w :
  model_validator UserRequest_fields [Key "body"] json_body = Valid request →
  calls (fst (api_mentor_assist env json_body w))
  = calls w
    ++ [ ChatCompletionsCreate
           {| chat_model := "gpt-4-turbo";
              response_format := [("type", "json_object")];
              messages :=
                [ {| role := "system"; content := SYSTEM_PROMPT_TEMPLATE |};
                  {| role := "user";
                     content := user_input_context request |} ];
              temperature := temperature_0_7 |} ].
Proof.
  intros Hreq. pose proof (mentor_assist_try_run env request w) as Hrun.
  destruct (mentor_assist_try env request w) as [w' [r|e]] eqn:Htry;
    injection Hrun as -> _.
  - by rewrite (api_mentor_assist_ok env _ _ _ _ _ Hreq Htry).
  - by rewrite (api_mentor_assist_raise env _ _ _ _ _ Hreq Htry).
Qed.

(** X6. A completion without any choice is answered 500 with the text
    of the index error. *)
Theorem no_choice_is_500 json_body request completion w :
  model_validator UserRequest_fields [Key "body"] json_body = Valid request →
  chat_completions_create env (completion_request request) = Ok completion →
  choices completion = [] →
  snd (api_mentor_assist env json_body w)
  = {| status := 500;
       body := JSONBody (PDict {[ "detail" :=
                PStr "list index out of range" ]}) |}.
Proof.
  intros Hreq Hc Hnone. pose proof (mentor_assist_try_run env request w) as Hrun.
  rewrite Hc, Hnone in Hrun. simpl in Hrun.
  by rewrite (api_mentor_assist_raise env _ _ _ _ _ Hreq Hrun).
Qed.

(** X7. A completion whose first choice has no text is answered 500
    with the text of the type error of [json.loads]; the other choices
    are not looked at. *)
Theorem null_content_is_500 json_body request completion others w :
  model_validator UserRequest_fields [Key "body"] json_body = Valid request →
  chat_completions_create env (completion_request request) = Ok completion →
  choices completion = {| message_content := None |} :: others →
  snd (api_mentor_assist env json_body w)
  = {| status := 500;
       body := JSONBody (PDict {[ "detail" := PStr
        "the JSON object must be str, bytes or bytearray, not NoneType" ]}) |}.
Proof.
  intros Hreq Hc Hnull. pose proof (mentor_assist_try_run env request w) as Hrun.
  rewrite Hc, Hnull in Hrun. simpl in Hrun.
  by rewrite (api_mentor_assist_raise env _ _ _ _ _ Hreq Hrun).
Qed.

(** The answer, given a completion with a text. *)
Lemma api_mentor_assist_text json_body request completion raw w :
  model_validator UserRequest_fields [Key "body"] json_body = Valid request →
  chat_completions_create env (completion_request request) = Ok completion →
  choices completion !! 0%nat = Some {| message_content := Some raw |} →
  snd (api_mentor_assist env json_body w)
  = match match json_decode env raw with
          | Decoded data => MentorResponse_init env data
          | Malformed msg lineno colno pos =>
              Raise (JSONDecodeError msg lineno colno pos)
          end with
    | Ok r => {| status := 200;
                 body := JSONBody (PDict (MentorResponse_model_dump r)) |}
    | Raise e => {| status := 500;
                    body := JSONBody (PDict {[ "detail" :=
                             PStr (str env e) ]}) |}
    end.
Proof.
  intros Hreq Hc Hchoice.
  rewrite <- (mentor_assist_try_text env request completion raw w Hc Hchoice).
  destruct (mentor_assist_try env request w) as [w' [r|e]] eqn:Htry.
  - by rewrite (api_mentor_assist_ok env _ _ _ _ _ Hreq Htry).
  - by rewrite (api_mentor_assist_raise env _ _ _ _ _ Hreq Htry).
Qed.

(** X8. When the returned object is one the construction accepts, the
    answer is 200: the text fields, the list and the question are those
    of the object, and [switched_track] is what the lax mode converts
    the object's value to. *)
Theorem mentor_assist_accepts_lax json_body request completion raw d w :
  model_validator UserRequest_fields [Key "body"] json_body = Valid request →
  chat_completions_create env (completion_request request) = Ok completion →
  choices completion !! 0%nat = Some {| message_content := Some raw |} →
  json_decode env raw = Decoded (PDict d) →
  accepted (PDict d) = true →
  ∃ r, snd (api_mentor_assist env json_body w)
       = {| status := 200;
            body := JSONBody (PDict (MentorResponse_model_dump r)) |}
       ∧ d !! "mentor_track" = Some (PStr (mentor_track r))
       ∧ (∃ v, d !! "switched_track" = Some v
               ∧ lax_bool v = Some (switched_track r))
       ∧ d !! "reply" = Some (PStr (reply r))
       ∧ ((d !! "clarifying_question" = None ∧ clarifying_question r = None)
          ∨ d !! "clarifying_question"
            = Some (of_opt_str (clarifying_question r)))
       ∧ d !! "next_actions" = Some (PList (PStr <$> next_actions r))
       ∧ d !! "memory_update" = Some (PStr (memory_update r)).
Proof.
  intros Hreq Hc Hchoice Hjson Hacc.
  apply (MentorResponse_fields_accepted []) in Hacc as [r Hr].
  exists r. rewrite (api_mentor_assist_text _ _ _ _ w Hreq Hc Hchoice), Hjson.
  unfold MentorResponse_init. rewrite Hr.
  split; [done|]. by apply MentorResponse_fields_inv in Hr.
Qed.

(** X9. Given a completion with a text, the answer is 200 exactly when
    the text scans as JSON to a value the construction accepts; in
    every other case it is 500. *)
Theorem mentor_assist_200_iff json_body request completion raw w :
  model_validator UserRequest_fields [Key "body"] json_body = Valid request →
  chat_completions_create env (completion_request request) = Ok completion →
  choices completion !! 0%nat = Some {| message_content := Some raw |} →
  (status (snd (api_mentor_assist env json_body w)) = 200
   ↔ ∃ data, json_decode env raw = Decoded data ∧ accepted data = true)
  ∧ (status (snd (api_mentor_assist env json_body w)) = 200
     ∨ status (snd (api_mentor_assist env json_body w)) = 500).
Proof.
  intros Hreq Hc Hchoice.
  rewrite (api_mentor_assist_text _ _ _ _ w Hreq Hc Hchoice).
  destruct (json_decode env raw) as [data|msg l c p].
  - destruct (accepted data) eqn:Hacc.
    + destruct data as [| | | | | |d]; try discriminate.
      apply (MentorResponse_fields_accepted []) in Hacc as [r Hr].
      unfold MentorResponse_init. rewrite Hr. simpl.
      split; [|by left]. split; [|done]. intros _. exists (PDict d).
      split; [done|]. apply (MentorResponse_fields_accepted []). eauto.
    + destruct (MentorResponse_init_refused env data Hacc) as (e & -> & _).
      simpl. split; [|by right].
      split; [discriminate|]. intros (data' & [= <-] & Hacc'). congruence.
  - simpl. split; [|by right].
    split; [discriminate|]. by intros (data' & [=] & _).
Qed.

(** X10. In the context sent to the completion API the user message
    is the body's, and a null counts as left out: a null or empty
    [active_mentor_track] gives None, a null [founder_profile] gives
    Unknown. The memory context is the body's text as it is, empty
    when the body leaves it out, and the word None when the body gives
    null. *)
Theorem mentor_assist_context_nulls d request w :
  UserRequest_fields [Key "body"] d = Valid request →
  ∃ message track profile memory,
    contexts_sent (fst (api_mentor_assist env (PDict d) w))
    = contexts_sent w ++ [context_block message track profile memory]
    ∧ d !! "user_message" = Some (PStr message)
    ∧ (d !! "active_mentor_track" = Some PNone → track = "None")
    ∧ (d !! "active_mentor_track" = Some (PStr EmptyString) → track = "None")
    ∧ (d !! "founder_profile" = Some PNone → profile = "Unknown")
    ∧ (d !! "memory_context" = None → memory = EmptyString)
    ∧ (d !! "memory_context" = Some PNone → memory = "None")
    ∧ (∀ s, d !! "memory_context" = Some (PStr s) → memory = s).
Proof.
  intros Hreq.
  exists (user_message request), (active_track_text request),
         (founder_profile_text request), (format_opt (memory_context request)).
  split; [by apply api_mentor_assist_context|].
  apply UserRequest_fields_inv in Hreq as (Hmsg & Hprf & Htrk & Hmem).
  split; [done|]. unfold active_track_text, founder_profile_text.
  repeat split.
  - intros Hnull. destruct Htrk as [[Htrk _] | Htrk]; [congruence|].
    rewrite Hnull in Htrk. by destruct (active_mentor_track request).
  - intros Hempty. destruct Htrk as [[Htrk _] | Htrk]; [congruence|].
    rewrite Hempty in Htrk.
    destruct (active_mentor_track request) as [t|]; [|done].
    by injection Htrk as <-.
  - intros Hnull.
    destruct Hprf as [[_ ->] | [[_ ->] | (pd & p & Hpd & _)]];
      [done | done | congruence].
  - intros Habsent. destruct Hmem as [[_ ->] | Hmem]; [done | congruence].
  - intros Hnull. destruct Hmem as [[Hmem _] | Hmem]; [congruence|].
    rewrite Hnull in Hmem. by destruct (memory_context request).
  - intros s Hs. destruct Hmem as [[Hmem _] | Hmem]; [congruence|].
    rewrite Hs in Hmem. destruct (memory_context request); [|done].
    by injection Hmem as <-.
Qed.

Lemma filter_nonempty_id (l : list bytes) :
  Forall (λ chunk, chunk ≠ []) l → filter (λ chunk, chunk ≠ []) l = l.
Proof.
  induction 1 as [|c cs Hc Hall IH]; [done|].
  rewrite filter_cons. case_decide; [by rewrite IH | done].
Qed.

(** X11. The chunks of the stream to the client are exactly the
    chunks of the vendor's stream that are not empty: every such chunk
    is sent, whole, in the vendor's order and as often as the vendor
    sent it, and nothing else is. The stream ends as the vendor's does,
    and when the vendor sends no empty chunk the two streams are the
    same. *)
Theorem speak_keeps_nonempty_chunks json_body request audio_stream w :
  model_validator TTSRequest_fields [Key "body"] json_body = Valid request →
  text_to_speech_convert env (synthesis_request request) = Ok audio_stream →
  ∃ sent, snd (api_voice_speak env json_body w)
          = {| status := 200; body := StreamBody sent "audio/mpeg" |}
          ∧ chunks sent
            = filter (λ chunk, chunk ≠ []) (chunks audio_stream)
          ∧ failure sent = failure audio_stream
          ∧ (∀ chunk, chunk ∈ chunks sent
                      ↔ chunk ∈ chunks audio_stream ∧ chunk ≠ [])
          ∧ Forall (λ chunk, chunk ≠ []) (chunks sent)
          ∧ chunks sent `sublist_of` chunks audio_stream
          ∧ (Forall (λ chunk, chunk ≠ []) (chunks audio_stream) →
             sent = audio_stream).
Proof.
  intros Hreq Hconvert.
  pose proof (text_to_speech_try_run env request w) as Hrun.
  rewrite Hconvert in Hrun.
  rewrite (api_voice_speak_ok env _ _ _ _ _ Hreq Hrun). simpl.
  exists (iterfile audio_stream). split; [done|]. unfold iterfile. simpl.
  split; [done|]. split; [done|]. split; [|split; [|split]].
  - intros chunk. rewrite list_elem_of_filter. tauto.
  - apply Forall_forall. intros chunk Hin.
    by apply list_elem_of_filter in Hin as [? _].
  - apply sublist_filter.
  - intros Hall. destruct audio_stream as [cs f]. simpl in *. f_equal.
    by apply filter_nonempty_id.
Qed.

(** X12. An upload is forwarded whole to the transcription vendor, for
    the model whisper-1, under its own file name when it has one that
    is not empty, and under audio.mp3 when its name is empty. *)
Theorem transcribe_named_upload file audio_bytes w :
  read file = Ok audio_bytes →
  ∃ r, transcription_calls (fst (api_voice_transcribe env (Some file) w))
       = transcription_calls w ++ [r]
       ∧ transcription_model r = "whisper-1"
       ∧ file_bytes r = audio_bytes
       ∧ (∀ name, filename file = Some name → name ≠ EmptyString →
                  file_name r = name)
       ∧ (filename file = Some EmptyString → file_name r = "audio.mp3").
Proof.
  intros Hread. exists (whisper_request file audio_bytes).
  pose proof (speech_to_text_try_run env file w) as Hrun.
  rewrite Hread in Hrun. split.
  - destruct (audio_transcriptions_create env _).
    + rewrite (api_voice_transcribe_ok env _ _ _ _ Hrun).
      unfold transcription_calls. simpl. by rewrite omap_app.
    + rewrite (api_voice_transcribe_raise env _ _ _ _ Hrun).
      unfold transcription_calls. simpl. by rewrite omap_app.
  - simpl. repeat split.
    + intros name -> Hne. simpl.
      destruct (String.eqb_spec name EmptyString); [contradiction | done].
    + by intros ->.
Qed.

(** X13. When the upload cannot be read, no vendor is called: the
    failure is printed and answered 500 with the text of the exception
    after the prefix of the route. *)
Theorem unreadable_upload_no_call file e w :
  read file = Raise e →
  api_voice_transcribe env (Some file) w
  = (World (stdout w ++ ["STT Error: " +:+ str env e]) (calls w),
     {| status := 500;
        body := JSONBody (PDict {[ "detail" :=
                 PStr ("Transcription failed: " +:+ str env e) ]}) |}).
Proof.
  intros Hread. pose proof (speech_to_text_try_run env file w) as Hrun.
  rewrite Hread in Hrun.
  by rewrite (api_voice_transcribe_raise env _ _ _ _ Hrun).
Qed.

End Details.

(** ** More on start-up *)

(** X14. Initialisation ends in exactly one of three ways, decided in
    this order: an error naming OPENAI_API_KEY when that key is missing
    or empty, whatever the other key is; an error naming
    ELEVENLABS_API_KEY when only that one is missing or empty; the two
    clients, holding the two keys. *)
Theorem module_init_cases dotenv environ :
  (module_init dotenv environ
   = Raise (ValueError "OPENAI_API_KEY is missing in .env")
   ↔ truthy (getenv (load_dotenv dotenv environ) OPENAI_API_KEY) = false)
  ∧ (module_init dotenv environ
     = Raise (ValueError "ELEVENLABS_API_KEY is missing in .env")
     ↔ truthy (getenv (load_dotenv dotenv environ) OPENAI_API_KEY) = true
       ∧ truthy (getenv (load_dotenv dotenv environ) ELEVENLABS_API_KEY)
         = false)
  ∧ (∀ a, module_init dotenv environ = Ok a
          ↔ truthy (getenv (load_dotenv dotenv environ) OPENAI_API_KEY) = true
            ∧ truthy (getenv (load_dotenv dotenv environ) ELEVENLABS_API_KEY)
              = true
            ∧ a = {| openai_api_key :=
                       getenv (load_dotenv dotenv environ) OPENAI_API_KEY;
                     elevenlabs_api_key :=
                       getenv (load_dotenv dotenv environ)
                              ELEVENLABS_API_KEY |}).
Proof.
  unfold module_init.
  destruct (truthy (getenv (load_dotenv dotenv environ) OPENAI_API_KEY));
    destruct (truthy (getenv (load_dotenv dotenv environ) ELEVENLABS_API_KEY));
    simpl; repeat split; try done; try (by intros [? ?]);
    try (by intros (? & ? & ?)); try (by intros [= <-]);
    try (by intros (_ & _ & ->)); try congruence.
Qed.

(** X15. A variable of the environment wins over the .env file, and
    the file supplies what the environment lacks. So a key that the
    environment sets to the empty string makes initialisation fail
    even when the .env file has a value for it. *)
Theorem environment_shadows_dotenv dotenv environ key :
  (∀ v, environ !! key = Some v →
        getenv (load_dotenv dotenv environ) key = Some v)
  ∧ (environ !! key = None →
     getenv (load_dotenv dotenv environ) key = dotenv !! key)
  ∧ (environ !! OPENAI_API_KEY = Some EmptyString →
     module_init dotenv environ
     = Raise (ValueError "OPENAI_API_KEY is missing in .env")).
Proof.
  unfold getenv, load_dotenv. split; [|split].
  - intros v Hv. by apply lookup_union_Some_l.
  - intros Hnone. by rewrite lookup_union_r.
  - intros Hempty. unfold module_init, getenv, load_dotenv.
    by rewrite (lookup_union_Some_l _ _ _ _ Hempty).
Qed.

(** ** The further properties on concrete runs *)

(** X1 on a run: a speech body without [text]. *)
Lemma route_unprocessable_iff_witness :
  well_formed (PostVoiceSpeak (PDict ∅)) = false
  ∧ status (snd (route (completing plain_text) (PostVoiceSpeak (PDict ∅))
                       start)) = 422
  ∧ fst (route (completing plain_text) (PostVoiceSpeak (PDict ∅)) start)
    = start.
Proof.
  destruct (route_unprocessable_iff (completing plain_text)
              (PostVoiceSpeak (PDict ∅)) start) as [[_ Hstatus] Hworld].
  split; [reflexivity|]. split; [apply Hstatus | apply Hworld]; reflexivity.
Defined.

(** X2 on a run: the completion has no choice. *)
Lemma route_outcome_witness :
  status (snd (route (mock no_completion silence no_transcript)
                     (PostMentorAssist hello) start)) = 500
  ∧ ∃ detail line,
      body (snd (route (mock no_completion silence no_transcript)
                       (PostMentorAssist hello) start))
      = JSONBody (PDict {[ "detail" := PStr detail ]})
      ∧ stdout (fst (route (mock no_completion silence no_transcript)
                           (PostMentorAssist hello) start))
        = stdout start ++ [line].
Proof.
  split; [reflexivity|].
  apply (proj1 (proj2 (route_outcome (mock no_completion silence no_transcript)
                         (PostMentorAssist hello) start))).
  reflexivity.
Defined.

(** X5 on a run. *)
Lemma mentor_assist_one_completion_call_witness :
  calls (fst (api_mentor_assist (completing "{}") hello start))
  = [ ChatCompletionsCreate
        {| chat_model := "gpt-4-turbo";
           response_format := [("type", "json_object")];
           messages :=
             [ {| role := "system"; content := SYSTEM_PROMPT_TEMPLATE |};
               {| role := "user";
                  content :=
                    context_block "How do I find customers?" "None" "Unknown"
                                  EmptyString |} ];
           temperature := temperature_0_7 |} ].
Proof.
  apply (mentor_assist_one_completion_call (completing "{}") hello
           {| user_message := "How do I find customers?";
              founder_profile := None;
              active_mentor_track := None;
              memory_context := Some EmptyString |} start).
  reflexivity.
Defined.

(** X6 on a run. *)
Lemma no_choice_is_500_witness :
  snd (api_mentor_assist (mock no_completion silence no_transcript)
                         hello start)
  = {| status := 500;
       body := JSONBody (PDict {[ "detail" :=
                PStr "list index out of range" ]}) |}.
Proof.
  eapply (no_choice_is_500 (mock no_completion silence no_transcript) hello
            _ {| choices := [] |} start); reflexivity.
Defined.

(** X7 on a run: the first choice has no text, the second has one. *)
Lemma null_content_is_500_witness :
  snd (api_mentor_assist
         (mock (Ok {| choices := [ {| message_content := None |};
                                   {| message_content := Some plain_text |} ]
                   |})
               silence no_transcript)
         hello start)
  = {| status := 500;
       body := JSONBody (PDict {[ "detail" := PStr
        "the JSON object must be str, bytes or bytearray, not NoneType" ]}) |}.
Proof.
  eapply (null_content_is_500
            (mock (Ok {| choices := [ {| message_content := None |};
                                      {| message_content := Some plain_text |} ]
                      |})
                  silence no_transcript)
            hello _ _ [ {| message_content := Some plain_text |} ] start);
    reflexivity.
Defined.

(** X8 on a run: [switched_track] is the number 1. *)
Lemma mentor_assist_accepts_lax_witness :
  one_data !! "switched_track" = Some (PInt 1)
  ∧ ∃ r, snd (api_mentor_assist (completing one_text) hello start)
         = {| status := 200;
              body := JSONBody (PDict (MentorResponse_model_dump r)) |}
         ∧ switched_track r = true
         ∧ mentor_track r = "Growth".
Proof.
  split; [reflexivity|].
  destruct (mentor_assist_accepts_lax (completing one_text) hello
              {| user_message := "How do I find customers?";
                 founder_profile := None;
                 active_mentor_track := None;
                 memory_context := Some EmptyString |}
              (completion_with one_text) one_text one_data start)
    as (r & Hanswer & Hmt & (v & Hv & Hsw) & _); try reflexivity.
  exists r. split; [exact Hanswer|].
  assert (v = PInt 1) as -> by (vm_compute in Hv; congruence).
  change (Some true = Some (switched_track r)) in Hsw.
  change (Some (PStr "Growth") = Some (PStr (mentor_track r))) in Hmt.
  split; congruence.
Defined.

(** X9 on runs: an accepted object; a list. *)
Lemma mentor_assist_200_iff_witness :
  status (snd (api_mentor_assist (completing one_text) hello start)) = 200
  ∧ status (snd (api_mentor_assist (completing "[]") hello start)) ≠ 200.
Proof.
  split.
  - destruct (mentor_assist_200_iff (completing one_text) hello
                {| user_message := "How do I find customers?";
                   founder_profile := None;
                   active_mentor_track := None;
                   memory_context := Some EmptyString |}
                (completion_with one_text) one_text start)
      as [[_ H200] _]; [reflexivity.. |].
    apply H200. exists (PDict one_data). split; reflexivity.
  - destruct (mentor_assist_200_iff (completing "[]") hello
                {| user_message := "How do I find customers?";
                   founder_profile := None;
                   active_mentor_track := None;
                   memory_context := Some EmptyString |}
                (completion_with "[]") "[]" start)
      as [[H200 _] _]; [reflexivity.. |].
    intros Hstatus. apply H200 in Hstatus as (data & Hdata & Hacc).
    change (Decoded (PList []) = Decoded data) in Hdata.
    injection Hdata as <-. discriminate Hacc.
Defined.

(** X10 on a run: the body gives null for the track, the profile and
    the memory context. *)
Lemma mentor_assist_context_nulls_witness :
  contexts_sent
    (fst (api_mentor_assist (completing plain_text)
            (PDict (<["user_message" := PStr "hi"]>
                    (<["active_mentor_track" := PNone]>
                     (<["founder_profile" := PNone]>
                      (<["memory_context" := PNone]> ∅)))))
            start))
  = [context_block "hi" "None" "Unknown" "None"].
Proof.
  destruct (mentor_assist_context_nulls (completing plain_text)
              (<["user_message" := PStr "hi"]>
               (<["active_mentor_track" := PNone]>
                (<["founder_profile" := PNone]>
                 (<["memory_context" := PNone]> ∅))))
              {| user_message := "hi"; founder_profile := None;
                 active_mentor_track := None; memory_context := None |}
              start)
    as (message & track & profile & memory & Hsent & Hmsg & Htrk & _ & Hprf
        & _ & Hmem & _); [reflexivity|].
  rewrite (Htrk eq_refl), (Hprf eq_refl), (Hmem eq_refl) in Hsent.
  change (Some (PStr "hi") = Some (PStr message)) in Hmsg.
  injection Hmsg as <-. exact Hsent.
Defined.

(** X11 on a run: the vendor's stream has an empty chunk, with other
    chunks before and after it. *)
Lemma speak_keeps_nonempty_chunks_witness :
  ∃ sent, snd (api_voice_speak
                 (mock no_completion
                       (Ok {| chunks := [riff; []; [Byte.x00]];
                              failure := None |})
                       no_transcript) say_hi start)
          = {| status := 200; body := StreamBody sent "audio/mpeg" |}
          ∧ chunks sent = [riff; [Byte.x00]]
          ∧ failure sent = None.
Proof.
  destruct (speak_keeps_nonempty_chunks
              (mock no_completion
                    (Ok {| chunks := [riff; []; [Byte.x00]];
                           failure := None |})
                    no_transcript)
              say_hi
              {| text := "Hi";
                 voice_id := Some default_voice_id;
                 model_id := Some default_model_id;
                 output_format := Some default_output_format |}
              {| chunks := [riff; []; [Byte.x00]]; failure := None |}
              start) as (sent & Hanswer & Hchunks & Hend & _);
    [reflexivity.. |].
  exists sent. split; [exact Hanswer|]. split; [exact Hchunks | exact Hend].
Defined.

(** X12 on a run: an upload named memo.wav. *)
Lemma transcribe_named_upload_witness :
  ∃ r, transcription_calls
         (fst (api_voice_transcribe (completing plain_text)
                 (Some {| filename := Some "memo.wav"; read := Ok riff |})
                 start))
       = [r]
       ∧ transcription_model r = "whisper-1"
       ∧ file_bytes r = riff
       ∧ file_name r = "memo.wav".
Proof.
  destruct (transcribe_named_upload (completing plain_text)
              {| filename := Some "memo.wav"; read := Ok riff |} riff start)
    as (r & Hcalls & Hmodel & Hbytes & Hname & _); [reflexivity|].
  exists r. split; [exact Hcalls|]. split; [exact Hmodel|].
  split; [exact Hbytes|]. apply Hname; [reflexivity | discriminate].
Defined.

(** X13 on a run. *)
Lemma unreadable_upload_no_call_witness :
  api_voice_transcribe (completing plain_text)
    (Some {| filename := None; read := Raise (VendorError "closed file") |})
    start
  = (World ["STT Error: closed file"] [],
     {| status := 500;
        body := JSONBody (PDict {[ "detail" :=
                 PStr "Transcription failed: closed file" ]}) |}).
Proof.
  apply (unreadable_upload_no_call (completing plain_text)
           {| filename := None; read := Raise (VendorError "closed file") |}
           (VendorError "closed file") start).
  reflexivity.
Defined.

(** X14 on a run: neither key is set, and the error names the first. *)
Lemma module_init_cases_witness :
  module_init ∅ ∅ = Raise (ValueError "OPENAI_API_KEY is missing in .env")
  ∧ module_init ∅ {[ OPENAI_API_KEY := "sk_0" ]}
    = Raise (ValueError "ELEVENLABS_API_KEY is missing in .env").
Proof.
  split.
  - apply (proj1 (module_init_cases ∅ ∅)). reflexivity.
  - apply (proj1 (proj2 (module_init_cases ∅ {[ OPENAI_API_KEY := "sk_0" ]}))).
    split; reflexivity.
Defined.

(** X15 on a run: the environment has an empty OPENAI_API_KEY and the
    .env file a value for it. *)
Lemma environment_shadows_dotenv_witness :
  getenv (load_dotenv {[ OPENAI_API_KEY := "sk_0" ]}
                      (environ_with EmptyString "sk_1")) OPENAI_API_KEY
  = Some EmptyString
  ∧ module_init {[ OPENAI_API_KEY := "sk_0" ]}
                (environ_with EmptyString "sk_1")
    = Raise (ValueError "OPENAI_API_KEY is missing in .env").
Proof.
  destruct (environment_shadows_dotenv {[ OPENAI_API_KEY := "sk_0" ]}
              (environ_with EmptyString "sk_1") OPENAI_API_KEY)
    as (Henv & _ & Hfail).
  split; [apply Henv | apply Hfail]; reflexivity.
Defined.

(** ** Vendor failures *)

Section VendorFailures.

Context (env : services).

(** X16. An exception raised by a vendor call is answered 500 on each
    route: with the exception's text on /api/mentor-assist, and with
    that text after the route's prefix on the two voice routes. *)
Theorem vendor_error_is_500 :
  (∀ json_body request e w,
     model_validator UserRequest_fields [Key "body"] json_body
     = Valid request →
     chat_completions_create env (completion_request request) = Raise e →
     snd (api_mentor_assist env json_body w)
     = {| status := 500;
          body := JSONBody (PDict {[ "detail" := PStr (str env e) ]}) |})
  ∧ (∀ json_body request e w,
       model_validator TTSRequest_fields [Key "body"] json_body
       = Valid request →
       text_to_speech_convert env (synthesis_request request) = Raise e →
       snd (api_voice_speak env json_body w)
       = {| status := 500;
            body := JSONBody (PDict {[ "detail" :=
                     PStr ("Text-to-speech failed: " +:+ str env e) ]}) |})
  ∧ (∀ file audio_bytes e w,
       read file = Ok audio_bytes →
       audio_transcriptions_create env (whisper_request file audio_bytes)
       = Raise e →
       snd (api_voice_transcribe env (Some file) w)
       = {| status := 500;
            body := JSONBody (PDict {[ "detail" :=
                     PStr ("Transcription failed: " +:+ str env e) ]}) |}).
Proof.
  split; [|split].
  - intros json_body request e w Hreq Hvendor.
    pose proof (mentor_assist_try_run env request w) as Hrun.
    rewrite Hvendor in Hrun.
    by rewrite (api_mentor_assist_raise env _ _ _ _ _ Hreq Hrun).
  - intros json_body request e w Hreq Hvendor.
    pose proof (text_to_speech_try_run env request w) as Hrun.
    rewrite Hvendor in Hrun.
    by rewrite (api_voice_speak_raise env _ _ _ _ _ Hreq Hrun).
  - intros file audio_bytes e w Hread Hvendor.
    pose proof (speech_to_text_try_run env file w) as Hrun.
    rewrite Hread, Hvendor in Hrun.
    by rewrite (api_voice_transcribe_raise env _ _ _ _ Hrun).
Qed.

(** X17. The text of a speech body reaches the vendor as it is, along
    with any parameter the body gives as a string. *)
Theorem speak_forwards_text d request w :
  TTSRequest_fields [Key "body"] d = Valid request →
  ∃ r, synthesis_calls (fst (api_voice_speak env (PDict d) w))
       = synthesis_calls w ++ [r]
       ∧ d !! "text" = Some (PStr (convert_text r))
       ∧ (∀ s, d !! "voice_id" = Some (PStr s) → convert_voice_id r = Some s)
       ∧ (∀ s, d !! "model_id" = Some (PStr s) → convert_model_id r = Some s)
       ∧ (∀ s, d !! "output_format" = Some (PStr s) →
               convert_output_format r = Some s).
Proof.
  intros Hreq. exists (synthesis_request request).
  split; [by apply api_voice_speak_calls|].
  apply TTSRequest_fields_inv in Hreq as (Htext & Hv & Hm & Hf). simpl.
  assert (∀ k o (default : option string),
            (d !! k = None ∧ o = default) ∨ d !! k = Some (of_opt_str o) →
            ∀ s, d !! k = Some (PStr s) → o = Some s) as Hgiven.
  { intros k o default [[Hk _] | Hk] s Hs; [congruence|].
    rewrite Hs in Hk. destruct o; [|discriminate]. by injection Hk as ->. }
  repeat split; eauto.
Qed.

End VendorFailures.

(** X16 on runs: each vendor refuses the call. *)
Lemma vendor_error_is_500_witness :
  snd (api_mentor_assist
         (mock (Raise (VendorError "rate limit")) silence no_transcript)
         hello start)
  = {| status := 500;
       body := JSONBody (PDict {[ "detail" := PStr "rate limit" ]}) |}
  ∧ snd (api_voice_speak
           (mock no_completion (Raise (VendorError "quota exceeded"))
                 no_transcript) say_hi start)
    = {| status := 500;
         body := JSONBody (PDict {[ "detail" :=
                  PStr "Text-to-speech failed: quota exceeded" ]}) |}
  ∧ snd (api_voice_transcribe
           (mock no_completion silence (Raise (VendorError "bad audio")))
           (Some unnamed_upload) start)
    = {| status := 500;
         body := JSONBody (PDict {[ "detail" :=
                  PStr "Transcription failed: bad audio" ]}) |}.
Proof.
  split; [|split].
  - eapply (proj1 (vendor_error_is_500
                     (mock (Raise (VendorError "rate limit")) silence
                           no_transcript))
              hello _ (VendorError "rate limit") start); reflexivity.
  - eapply (proj1 (proj2 (vendor_error_is_500
                     (mock no_completion (Raise (VendorError "quota exceeded"))
                           no_transcript)))
              say_hi _ (VendorError "quota exceeded") start); reflexivity.
  - eapply (proj2 (proj2 (vendor_error_is_500
                     (mock no_completion silence
                           (Raise (VendorError "bad audio")))))
              unnamed_upload riff (VendorError "bad audio") start);
      reflexivity.
Defined.

(** X17 on a run: the body names a voice. *)
Lemma speak_forwards_text_witness :
  ∃ r, synthesis_calls
         (fst (api_voice_speak (completing plain_text)
                 (PDict (<["text" := PStr "Good morning"]>
                         (<["voice_id" := PStr "v1"]> ∅))) start))
       = [r]
       ∧ convert_text r = "Good morning"
       ∧ convert_voice_id r = Some "v1".
Proof.
  destruct (speak_forwards_text (completing plain_text)
              (<["text" := PStr "Good morning"]> (<["voice_id" := PStr "v1"]> ∅))
              {| text := "Good morning";
                 voice_id := Some "v1";
                 model_id := Some default_model_id;
                 output_format := Some default_output_format |}
              start) as (r & Hcalls & Htext & Hvoice & _); [reflexivity|].
  exists r. split; [exact Hcalls|].
  change (Some (PStr "Good morning") = Some (PStr (convert_text r))) in Htext.
  split; [congruence|]. apply Hvoice. reflexivity.
Defined.
